(** * cotk.metric.metric: the metric base class, the metric chain and the
      order-independent fingerprint they carry.

    The development embeds [cotk/metric/metric.py] ([MetricBase] and
    [MetricChain]).  Objects live in a store indexed by references, so that
    a metric registered twice, or a chain registered in itself, is the same
    object, as in Python.  Exceptions leave the store as it is at the point
    of the raise. *)

From stdpp Require Import gmap strings list pretty.
From Stdlib Require Import ZArith Lia Permutation.

Local Open Scope Z_scope.
#[local] Set Warnings "-register-all".


(** Python [bytes]: the sequence of ints in [range(256)] that iterating a
    [bytes] object yields. *)
Definition bytes : Type := list Z.

(** ** SHA-256 (FIPS 180-4), the per-record hash behind [hashlib.sha256]. *)

Module Sha256.

Definition mask32 : Z := 0xFFFFFFFF.

Definition add32 (x y : Z) : Z := Z.land (x + y) mask32.

Definition rotr (n x : Z) : Z :=
  Z.land (Z.lor (Z.shiftr x n) (Z.shiftl x (32 - n))) mask32.

Definition Ch (x y z : Z) : Z :=
  Z.lxor (Z.land x y) (Z.land (Z.lxor x mask32) z).

Definition Maj (x y z : Z) : Z :=
  Z.lxor (Z.lxor (Z.land x y) (Z.land x z)) (Z.land y z).

Definition Sigma0 (x : Z) : Z :=
  Z.lxor (Z.lxor (rotr 2 x) (rotr 13 x)) (rotr 22 x).

Definition Sigma1 (x : Z) : Z :=
  Z.lxor (Z.lxor (rotr 6 x) (rotr 11 x)) (rotr 25 x).

Definition sigma0 (x : Z) : Z :=
  Z.lxor (Z.lxor (rotr 7 x) (rotr 18 x)) (Z.shiftr x 3).

Definition sigma1 (x : Z) : Z :=
  Z.lxor (Z.lxor (rotr 17 x) (rotr 19 x)) (Z.shiftr x 10).

(** The first 64 primes, by trial division over 2..311. *)
Fixpoint sieve (fuel : nat) (n : Z) (ps : list Z) : list Z :=
  match fuel with
  | O => ps
  | S fuel' =>
      sieve fuel' (n + 1)
        (if forallb (fun p => negb (n mod p =? 0)) ps then ps ++ [n] else ps)
  end.

Definition primes : list Z := Eval vm_compute in sieve 310 2 [].

(** The largest [r] below [2 ^ bits] with [r ^ 3 <= n], one bit at a time. *)
Fixpoint cube_root (bits : nat) (n r : Z) : Z :=
  match bits with
  | O => r
  | S bits' =>
      let c := r + 2 ^ Z.of_nat bits' in
      cube_root bits' n (if c ^ 3 <=? n then c else r)
  end.

(** The round constants: "the first thirty-two bits of the fractional parts
    of the cube roots of the first sixty-four prime numbers". *)
Definition K : list Z :=
  Eval vm_compute in
    map (fun p => Z.land (cube_root 36 (p * 2 ^ 96) 0) mask32) primes.

(** The eight working variables, also the chaining value. *)
Definition regs : Type := (Z * Z * Z * Z * Z * Z * Z * Z)%type.

(** The fractional part of a square root, to thirty-two bits. *)
Definition sqrt_frac (p : Z) : Z := Z.land (Z.sqrt (p * 2 ^ 64)) mask32.

(** The initial hash value: the same of the square roots of the first
    eight primes. *)
Definition H0 : regs :=
  Eval vm_compute in
    (sqrt_frac 2, sqrt_frac 3, sqrt_frac 5, sqrt_frac 7,
     sqrt_frac 11, sqrt_frac 13, sqrt_frac 17, sqrt_frac 19).

(** Big-endian 64-bit length field, and the padding of a message. *)
Definition be64 (n : Z) : bytes :=
  map (fun i => Z.land (Z.shiftr n (8 * i)) 0xFF) [7; 6; 5; 4; 3; 2; 1; 0].

Definition pad (msg : bytes) : bytes :=
  let len := Z.of_nat (length msg) in
  msg ++ [0x80] ++ repeat 0 (Z.to_nat ((55 - len) mod 64)) ++ be64 (8 * len).

Fixpoint be_words (bs : bytes) : list Z :=
  match bs with
  | a :: b :: c :: d :: rest =>
      Z.lor (Z.lor (Z.shiftl a 24) (Z.shiftl b 16)) (Z.lor (Z.shiftl c 8) d)
      :: be_words rest
  | _ => []
  end.

(** Message schedule: [n] more words after the ones in [w]. *)
Fixpoint schedule (n : nat) (w : list Z) : list Z :=
  match n with
  | O => w
  | S n' =>
      let t := length w in
      let back (i : nat) := nth (t - i) w 0 in
      schedule n'
        (w ++ [add32 (add32 (sigma1 (back 2%nat)) (back 7%nat))
                     (add32 (sigma0 (back 15%nat)) (back 16%nat))])
  end.

Definition round (s : regs) (kw : Z * Z) : regs :=
  let '(a, b, c, d, e, f, g, h) := s in
  let t1 := add32 (add32 (add32 h (Sigma1 e)) (add32 (Ch e f g) (fst kw))) (snd kw) in
  let t2 := add32 (Sigma0 a) (Maj a b c) in
  (add32 t1 t2, a, b, c, add32 d t1, e, f, g).

Definition compress (s : regs) (block : bytes) : regs :=
  let w := schedule 48 (be_words block) in
  let '(a, b, c, d, e, f, g, h) := fold_left round (combine K w) s in
  let '(a0, b0, c0, d0, e0, f0, g0, h0) := s in
  (add32 a0 a, add32 b0 b, add32 c0 c, add32 d0 d,
   add32 e0 e, add32 f0 f, add32 g0 g, add32 h0 h).

Fixpoint blocks (n : nat) (bs : bytes) : list bytes :=
  match n with
  | O => []
  | S n' => take 64 bs :: blocks n' (drop 64 bs)
  end.

Definition be32 (x : Z) : bytes :=
  map (fun i => Z.land (Z.shiftr x (8 * i)) 0xFF) [3; 2; 1; 0].

Definition regs_bytes (s : regs) : bytes :=
  let '(a, b, c, d, e, f, g, h) := s in
  be32 a ++ be32 b ++ be32 c ++ be32 d ++ be32 e ++ be32 f ++ be32 g ++ be32 h.

(** [hashlib.sha256(data).digest()] *)
Definition digest (data : bytes) : bytes :=
  let p := pad data in
  regs_bytes (fold_left compress (blocks (length p / 64) p) H0).

End Sha256.

(** ** Python values *)

(** A reference to an object of the store. *)
Definition ref : Type := nat.

(** The values a caller can pass to [forward] and [add_metric].  A [str] is
    a sequence of code points below 256, one character each; [PyObj] is a
    reference to a metric object (the store holds nothing else). *)
Inductive pyval : Type :=
| PyNone
| PyInt (z : Z)
| PyStr (s : string)
| PyList (l : list pyval)
| PyDict (d : gmap string pyval)
| PyObj (r : ref).

(** The mapping a [close] returns. *)
Abbreviation dict := (gmap string pyval).

(** [isinstance(data, dict)] *)
Definition is_dict (v : pyval) : bool :=
  match v with PyDict _ => true | _ => false end.

(** The exceptions of the module.  [RecursionError] is what the interpreter
    raises when the call depth is exhausted; [SystemError] marks a call on a
    reference that is not in the store, which no Python program can hold. *)
Inductive exn : Type :=
| ValueError (msg : string)
| TypeError (msg : string)
| RuntimeError (msg : string)
| AttributeError (msg : string)
| RecursionError
| SystemError.

(** ** [repr(item).encode()] *)

(** Python's [repr], one instance per type of record. *)
Class Repr (A : Type) : Type := repr : A -> string.

Module PyStr.

Definition code (a : Ascii.ascii) : Z := Z.of_N (Ascii.N_of_ascii a).

Definition chr (c : Z) : Ascii.ascii := Ascii.ascii_of_N (Z.to_N c).

Definition hexdigit (n : Z) : Z := if n <? 10 then 48 + n else 87 + n.

(** [\xNN] *)
Definition hex_escape (c : Z) : list Z :=
  [92; 120; hexdigit (c / 16); hexdigit (c mod 16)].

(** [str.isprintable] on one code point below 256. *)
Definition printable (c : Z) : bool :=
  ((32 <=? c) && (c <? 127)) || ((161 <=? c) && negb (c =? 173)).

Definition escape (quote c : Z) : list Z :=
  if (c =? quote) || (c =? 92) then [92; c]
  else if c =? 9 then [92; 116]
  else if c =? 10 then [92; 110]
  else if c =? 13 then [92; 114]
  else if printable c then [c]
  else hex_escape c.

(** Single quotes, unless the text holds a single quote and no double
    quote. *)
Definition quote_of (cs : list Z) : Z :=
  if bool_decide (39 ∈ cs) && negb (bool_decide (34 ∈ cs)) then 34 else 39.

Definition str_repr (s : string) : string :=
  let cs := map code (String.list_ascii_of_string s) in
  let q := quote_of cs in
  String.string_of_list_ascii
    (map chr ([q] ++ flat_map (escape q) cs ++ [q])).

(** UTF-8 of one code point below 256. *)
Definition utf8 (c : Z) : bytes :=
  if c <? 128 then [c]
  else [Z.lor 0xC0 (Z.shiftr c 6); Z.lor 0x80 (Z.land c 0x3F)].

(** [s.encode()] *)
Definition encode (s : string) : bytes :=
  flat_map (fun a => utf8 (code a)) (String.list_ascii_of_string s).

End PyStr.

#[export] Instance str_Repr : Repr string := PyStr.str_repr.

(** [repr] of an [int] is its decimal numeral. *)
#[export] Instance int_Repr : Repr Z := fun z => pretty z.

(** [repr] of a list: the elements' [repr]s, comma separated, in brackets. *)
Fixpoint join_repr {A} `{Repr A} (l : list A) : string :=
  match l with
  | [] => EmptyString
  | [x] => repr x
  | x :: rest => repr x +:+ ", " +:+ join_repr rest
  end.

#[export] Instance list_Repr {A} `{Repr A} : Repr (list A) :=
  fun l => "[" +:+ join_repr l +:+ "]".

(** ** The fingerprint accumulator *)

Module UnorderedSha256.

(** Modelled from the spec: the class [UnorderedSha256] of
    [cotk/_utils/unordered_hash.py], which [metric.py] imports, is not
    among the sources.  The accumulator "holds fixed-size running state,
    not the full record history": here the 32 byte values of [result]. *)
Record t : Type := mk { result : list Z }.

(** Modelled from the spec: the constructor of the missing class; the
    running state of an accumulator that has seen no record. *)
Definition init : t := mk (replicate 32 0).

(** Modelled from the spec: the missing "fixed-size commutative merge",
    taken as the spec's first example, "modular addition": byte [i] of the
    running state becomes [(result[i] + hashvalue[i]) & 0xFF]. *)
Fixpoint add_bytes (result hashvalue : list Z) : list Z :=
  match result, hashvalue with
  | r :: result', b :: hashvalue' =>
      Z.land (r + b) 0xFF :: add_bytes result' hashvalue'
  | _, [] => result
  | [], _ :: _ => []
  end.

(** Modelled from the spec: the missing method that merges one per-record
    digest into the running state. *)
Definition update_hash (self : t) (hashvalue : bytes) : t :=
  mk (add_bytes (result self) hashvalue).

(** Modelled from the spec: the missing method [update_data], "combining
    independently-hashed per-record digests": the record is hashed on its
    own with SHA-256, the hash the class is named after, and the digest is
    merged into the running state. *)
Definition update_data (self : t) (data : bytes) : t :=
  update_hash self (Sha256.digest data).

(** Modelled from the spec: the missing method [digest], which "returns
    the current Fingerprint value" and has no side effect. *)
Definition digest (self : t) : bytes := result self.

End UnorderedSha256.

(** ** [class MetricBase] *)

Module MetricBase.

(** The attributes [__init__] sets. *)
Record t : Type := mk { unordered_hash : UnorderedSha256.t; closed : bool }.

(** [__init__] *)
Definition init : t := mk UnorderedSha256.init false.

(** The body of the loop of [_hash_relevant_data]. *)
Definition hash_item {A} `{Repr A} (self : t) (item : A) : t :=
  mk (UnorderedSha256.update_data (unordered_hash self)
        (PyStr.encode (repr item)))
     (closed self).

Definition _hash_relevant_data {A} `{Repr A} (self : t) (data_list : list A) : t :=
  fold_left hash_item data_list self.

Definition _hashvalue (self : t) : bytes :=
  UnorderedSha256.digest (unordered_hash self).

Definition closed_msg : string := "The metric has been closed.".

(** [forward] changes no attribute: it returns or raises. *)
Definition forward (self : t) (data : pyval) : exn + unit :=
  if closed self then inl (ValueError closed_msg)
  else if negb (is_dict data) then inl (TypeError "Data must be a dict.")
  else inr tt.

(** [close]: the outcome and the attributes after the call. *)
Definition close (self : t) : (exn + dict) * t :=
  if negb (closed self) then (inr ∅, mk (unordered_hash self) true)
  else (inl (RuntimeError closed_msg), self).

End MetricBase.

(** A subclass of [MetricBase] defined outside this module: the attributes
    [X] it adds and its two overriding methods, which read and write the
    attributes of their own object only.  A raising method leaves the
    attributes it returns. *)
Class Subclass (X : Type) : Type := {
  sub_forward : MetricBase.t -> X -> pyval -> (exn + unit) * (MetricBase.t * X);
  sub_close : MetricBase.t -> X -> (exn + dict) * (MetricBase.t * X)
}.

(** ** The store and the calls *)

Inductive object (X : Type) : Type :=
| Base (self : MetricBase.t)
| Chain (self : MetricBase.t) (metric_list : list ref)
| Sub (self : MetricBase.t) (attrs : X).
Arguments Base {X} self.
Arguments Chain {X} self metric_list.
Arguments Sub {X} self attrs.

(** A method call on an object of the store, as it is entered. *)
Inductive event : Type :=
| CallForward (callee : ref) (data : pyval)
| CallClose (callee : ref).

Record state (X : Type) : Type := mkState {
  heap : gmap ref (object X);
  calls : list event
}.
Arguments mkState {X} heap calls.
Arguments heap {X} _.
Arguments calls {X} _.

(** A computation returns or raises, and in both cases leaves a state. *)
Definition M (X A : Type) : Type := state X -> (exn + A) * state X.

Definition ret {X A} (a : A) : M X A := fun σ => (inr a, σ).

Definition raise {X A} (e : exn) : M X A := fun σ => (inl e, σ).

Definition bind {X A B} (m : M X A) (k : A -> M X B) : M X B :=
  fun σ =>
    match m σ with
    | (inr a, σ') => k a σ'
    | (inl e, σ') => (inl e, σ')
    end.

Notation "'let*' x ':=' m 'in' k" := (bind m (fun x => k))
  (at level 10, x pattern, m at level 100, k at level 200).

Definition lift {X A} (r : exn + A) : M X A := fun σ => (r, σ).

Definition log {X} (e : event) : M X unit :=
  fun σ => (inr tt, mkState (heap σ) (calls σ ++ [e])).

Definition lookup_object {X} (r : ref) : M X (object X) :=
  fun σ =>
    match heap σ !! r with
    | Some o => (inr o, σ)
    | None => (inl SystemError, σ)
    end.

Definition store {X} (r : ref) (o : object X) : M X unit :=
  fun σ => (inr tt, mkState (<[r := o]> (heap σ)) (calls σ)).

(** [for x in l: f(x)] *)
Fixpoint for_each {X A} (f : A -> M X unit) (l : list A) : M X unit :=
  match l with
  | [] => ret tt
  | x :: l' => let* _ := f x in for_each f l'
  end.

(** [for x in l: acc = f(acc, x)] *)
Fixpoint for_fold {X A B} (f : B -> A -> M X B) (l : list A) (acc : B) : M X B :=
  match l with
  | [] => ret acc
  | x :: l' => let* acc' := f acc x in for_fold f l' acc'
  end.

(** [res.update(other)]: the keys of [other] overwrite those of [res]. *)
Definition dict_update (res other : dict) : dict := other ∪ res.

(** ** [class MetricChain(MetricBase)] *)

Module MetricChain.

Section Methods.
Context {X : Type}.

(** [forward]; [call] is the dynamic dispatch of [metric.forward].  The
    loop runs over the list as it is when the loop starts: no [forward] and
    no [close] changes a [metric_list]. *)
Definition forward (call : ref -> pyval -> M X unit)
    (self : MetricBase.t) (metric_list : list ref) (data : pyval) : M X unit :=
  let* _ := lift (MetricBase.forward self data) in
  for_each (fun metric => call metric data) metric_list.

(** [close]; [call] is the dynamic dispatch of [metric.close], [this]
    the reference of the chain. *)
Definition close (call : ref -> M X dict)
    (this : ref) (self : MetricBase.t) (metric_list : list ref) : M X dict :=
  match MetricBase.close self with
  | (inl e, _) => raise e
  | (inr res, self') =>
      let* _ := store this (Chain self' metric_list) in
      for_fold
        (fun res metric => let* r := call metric in ret (dict_update res r))
        metric_list res
  end.

(** [isinstance(metric, MetricBase)]: every object of the store is one. *)
Definition is_metric (σ : state X) (metric : pyval) : option ref :=
  match metric with
  | PyObj m => if heap σ !! m is Some _ then Some m else None
  | _ => None
  end.

Definition add_metric (this : ref) (metric : pyval) : M X unit :=
  let* o := lookup_object this in
  match o with
  | Chain self metric_list =>
      fun σ =>
        match is_metric σ metric with
        | None => (inl (TypeError "Metric must be a subclass of MetricBase"), σ)
        | Some m => store this (Chain self (metric_list ++ [m])) σ
        end
  | _ => raise (AttributeError "add_metric")
  end.

End Methods.

End MetricChain.

(** ** Method calls *)

Section Dispatch.
Context {X : Type} `{Subclass X}.

(** [MetricBase()] and [MetricChain()] *)
Definition alloc (o : object X) : M X ref :=
  fun σ =>
    let r := fresh (dom (heap σ)) in
    (inr r, mkState (<[r := o]> (heap σ)) (calls σ)).

Definition new_MetricBase : M X ref := alloc (Base MetricBase.init).

Definition new_MetricChain : M X ref := alloc (Chain MetricBase.init []).

(** The constructor of a subclass: [super().__init__()], then the
    attributes of the subclass. *)
Definition new_Sub (attrs : X) : M X ref := alloc (Sub MetricBase.init attrs).

(** [r.forward(data)] with [depth] frames left on the interpreter's stack. *)
Fixpoint call_forward (depth : nat) (r : ref) (data : pyval) : M X unit :=
  match depth with
  | O => raise RecursionError
  | S depth' =>
      let* _ := log (CallForward r data) in
      let* o := lookup_object r in
      match o with
      | Base self => lift (MetricBase.forward self data)
      | Chain self metric_list =>
          MetricChain.forward (call_forward depth') self metric_list data
      | Sub self attrs =>
          let '(res, (self', attrs')) := sub_forward self attrs data in
          let* _ := store r (Sub self' attrs') in
          lift res
      end
  end.

(** [r.close()] with [depth] frames left. *)
Fixpoint call_close (depth : nat) (r : ref) : M X dict :=
  match depth with
  | O => raise RecursionError
  | S depth' =>
      let* _ := log (CallClose r) in
      let* o := lookup_object r in
      match o with
      | Base self =>
          match MetricBase.close self with
          | (inl e, _) => raise e
          | (inr res, self') => let* _ := store r (Base self') in ret res
          end
      | Chain self metric_list =>
          MetricChain.close (call_close depth') r self metric_list
      | Sub self attrs =>
          let '(res, (self', attrs')) := sub_close self attrs in
          let* _ := store r (Sub self' attrs') in
          lift res
      end
  end.

End Dispatch.

(** ** A sample subclass

    In the style of the metrics of the package: [forward] calls
    [super().forward(data)] and records the batch, [close] calls
    [super().close()] and adds the results it was built with. *)

Record recorder : Type := mkRecorder { emits : dict; seen : list pyval }.

#[export] Instance recorder_Subclass : Subclass recorder := {
  sub_forward self attrs data :=
    match MetricBase.forward self data with
    | inl e => (inl e, (self, attrs))
    | inr _ => (inr tt, (self, mkRecorder (emits attrs) (seen attrs ++ [data])))
    end;
  sub_close self attrs :=
    match MetricBase.close self with
    | (inl e, _) => (inl e, (self, attrs))
    | (inr res, self') => (inr (dict_update res (emits attrs)), (self', attrs))
    end
}.

(** ** Auxiliary notions for the statements *)

(** The attributes every metric object has. *)
Definition obj_base {X} (o : object X) : MetricBase.t :=
  match o with Base self | Chain self _ | Sub self _ => self end.

(** Instances of the two classes of this module. *)
Definition source_class {X} (o : object X) : bool :=
  match o with Base _ | Chain _ _ => true | Sub _ _ => false end.

(** What [forward] and [close] do to an object that is not a chain: the
    outcome and the object after the call ([None] on a chain).
    [call_forward_leaf] and [call_close_leaf] below relate them to
    [call_forward] and [call_close]. *)
Definition leaf_forward {X} `{Subclass X} (o : object X) (data : pyval)
    : option ((exn + unit) * object X) :=
  match o with
  | Base self => Some (MetricBase.forward self data, o)
  | Sub self attrs =>
      let '(res, (self', attrs')) := sub_forward self attrs data in
      Some (res, Sub self' attrs')
  | Chain _ _ => None
  end.

Definition leaf_close {X} `{Subclass X} (o : object X)
    : option ((exn + dict) * object X) :=
  match o with
  | Base self =>
      match MetricBase.close self with
      | (inr res, self') => Some (inr res, Base self')
      | (inl e, _) => Some (inl e, o)
      end
  | Sub self attrs =>
      let '(res, (self', attrs')) := sub_close self attrs in
      Some (res, Sub self' attrs')
  | Chain _ _ => None
  end.

(** The state once the call [e] is entered. *)
Definition logged {X} (e : event) (σ : state X) : state X :=
  mkState (heap σ) (calls σ ++ [e]).

(** The calls [m.close()] for [m] in [l], in the order of [l], up to the
    first that raises; the mappings returned. *)
Fixpoint close_all {X} (call : ref -> M X dict) (l : list ref) : M X (list dict) :=
  match l with
  | [] => ret []
  | m :: l' =>
      let* d := call m in
      let* ds := close_all call l' in
      ret (d :: ds)
  end.

(** The mappings of the children, merged in the order of the list. *)
Definition merge_results (ds : list dict) : dict := fold_left dict_update ds ∅.

(** How an object may differ after calls of [forward], [close] and
    [add_metric] anywhere in the store: it keeps its class; an instance of a
    class of this module keeps its accumulator and stays closed once closed;
    a chain only gains children, at the end of its list. *)
Definition obj_le {X} (o o' : object X) : Prop :=
  match o, o' with
  | Base b, Base b' =>
      MetricBase.unordered_hash b' = MetricBase.unordered_hash b /\
      (MetricBase.closed b = true -> MetricBase.closed b' = true)
  | Chain b ml, Chain b' ml' =>
      MetricBase.unordered_hash b' = MetricBase.unordered_hash b /\
      (MetricBase.closed b = true -> MetricBase.closed b' = true) /\
      ml `prefix_of` ml'
  | Sub _ _, Sub _ _ => True
  | _, _ => False
  end.

Definition heap_le {X} (h h' : gmap ref (object X)) : Prop :=
  forall r o, h !! r = Some o -> exists o', h' !! r = Some o' /\ obj_le o o'.

(** A computation under which every object evolves as [obj_le] allows. *)
Definition preserves {X A} (m : M X A) : Prop :=
  forall σ, heap_le (heap σ) (heap (snd (m σ))).

(** The store [h] where the objects at [ms] are replaced by [os]. *)
Definition updated {X} (ms : list ref) (os : list (object X))
    (h : gmap ref (object X)) : gmap ref (object X) :=
  list_to_map (zip ms os) ∪ h.

(** The calls a client makes on the objects of the store.  A client that
    catches the exception of a call goes on from the state the call left. *)
Inductive call (X : Type) : Type :=
| DoNewBase
| DoNewChain
| DoNewSub (attrs : X)
| DoForward (r : ref) (data : pyval)
| DoClose (r : ref)
| DoAddMetric (r : ref) (metric : pyval).
Arguments DoNewBase {X}.
Arguments DoNewChain {X}.
Arguments DoNewSub {X} attrs.
Arguments DoForward {X} r data.
Arguments DoClose {X} r.
Arguments DoAddMetric {X} r metric.

Definition run_call {X} `{Subclass X} (depth : nat) (c : call X) (σ : state X)
    : state X :=
  match c with
  | DoNewBase => snd (new_MetricBase σ)
  | DoNewChain => snd (new_MetricChain σ)
  | DoNewSub attrs => snd (new_Sub attrs σ)
  | DoForward r data => snd (call_forward depth r data σ)
  | DoClose r => snd (call_close depth r σ)
  | DoAddMetric r metric => snd (MetricChain.add_metric r metric σ)
  end.

Definition run_calls {X} `{Subclass X} (depth : nat) (cs : list (call X)) (σ : state X)
    : state X :=
  fold_left (fun σ c => run_call depth c σ) cs σ.

(** The object a call is made on. *)
Definition call_target {X} (c : call X) : option ref :=
  match c with
  | DoForward r _ | DoClose r | DoAddMetric r _ => Some r
  | _ => None
  end.

Definition callee (e : event) : ref :=
  match e with CallForward r _ | CallClose r => r end.

Definition is_byte (b : Z) : Prop := 0 <= b < 256.

(** What every accumulator reached from [UnorderedSha256.init] satisfies. *)
Definition acc_ok (u : UnorderedSha256.t) : Prop :=
  length (UnorderedSha256.result u) = 32%nat /\
  Forall is_byte (UnorderedSha256.result u).

(** ** Sample stores

    A chain at reference 0 with two open recorders at 1 and 2, which emit
    {"a": 1} and {"a": 2, "b": 3}; the same with a closed recorder at 3
    registered between the two; a closed chain with no child beside a
    metric; and a batch. *)

Definition E1 : object recorder :=
  Sub MetricBase.init (mkRecorder {["a" := PyInt 1]} []).

Definition E2 : object recorder :=
  Sub MetricBase.init (mkRecorder {["a" := PyInt 2; "b" := PyInt 3]} []).

Definition E3_closed : object recorder :=
  Sub (MetricBase.mk UnorderedSha256.init true) (mkRecorder ∅ []).

Definition sample_store : state recorder :=
  mkState
    (list_to_map [(0, Chain MetricBase.init [1; 2]); (1, E1); (2, E2)]%nat) [].

Definition sample_store_closed_child : state recorder :=
  mkState
    (list_to_map
       [(0, Chain MetricBase.init [1; 3; 2]); (1, E1); (2, E2); (3, E3_closed)]%nat)
    [].

Definition sample_store_closed_chain : state recorder :=
  mkState
    (list_to_map
       [(0, Chain (MetricBase.mk UnorderedSha256.init true) []);
        (1, Base MetricBase.init)]%nat)
    [].

(** A chain in which the recorder at 1 is registered twice. *)
Definition sample_store_twice : state recorder :=
  mkState (list_to_map [(0, Chain MetricBase.init [1; 1]); (1, E1)]%nat) [].

Definition sample_batch : pyval :=
  PyDict {["gen" := PyList [PyList [PyInt 4; PyInt 2]]]}.

(** A recorder that has seen [batches]. *)
Definition seen_by (o : object recorder) (batches : list pyval) : object recorder :=
  match o with
  | Sub self attrs => Sub self (mkRecorder (emits attrs) batches)
  | _ => o
  end.

(** A metric after a [close] that returned. *)
Definition closed_of {X} (o : object X) : object X :=
  match o with
  | Base self => Base (MetricBase.mk (MetricBase.unordered_hash self) true)
  | Chain self ml => Chain (MetricBase.mk (MetricBase.unordered_hash self) true) ml
  | Sub self attrs => Sub (MetricBase.mk (MetricBase.unordered_hash self) true) attrs
  end.

(** ** Further notions for the statements *)

(** One step of [_hash_relevant_data], on the serialisation of the item. *)
Definition hash_serialised (self : MetricBase.t) (data : bytes) : MetricBase.t :=
  MetricBase.mk
    (UnorderedSha256.update_data (MetricBase.unordered_hash self) data)
    (MetricBase.closed self).

(** A computation that relates the state it starts from and the state it
    leaves, whatever its outcome. *)
Definition keeps {X A} (R : state X -> state X -> Prop) (m : M X A) : Prop :=
  forall σ, R σ (snd (m σ)).

(** The calls entered between two states all satisfy [P]. *)
Definition enters_only {X} (P : event -> Prop) (σ σ' : state X) : Prop :=
  exists evs, calls σ' = calls σ ++ evs /\ Forall P evs.

(** A call of [forward] with the argument [data]. *)
Definition is_forward_of (data : pyval) (e : event) : Prop :=
  exists m, e = CallForward m data.

(** A call of [close]. *)
Definition is_close (e : event) : Prop := exists m, e = CallClose m.

(** The instances of [MetricBase] and [MetricChain] are the same objects in
    both states. *)
Definition same_source_objects {X} (σ σ' : state X) : Prop :=
  forall r o, heap σ !! r = Some o -> source_class o = true -> heap σ' !! r = Some o.

(** Every chain has the same [metric_list] in both states. *)
Definition same_metric_lists {X} (σ σ' : state X) : Prop :=
  forall r self ml,
    heap σ !! r = Some (Chain self ml) ->
    exists self', heap σ' !! r = Some (Chain self' ml).

(** A client call other than [add_metric]. *)
Definition not_add_metric {X} (c : call X) : bool :=
  match c with DoAddMetric _ _ => false | _ => true end.

(** A chain at 0 whose only child is the chain at 3 of the recorders at 1
    and 2. *)
Definition sample_store_nested : state recorder :=
  mkState
    (list_to_map
       [(0, Chain MetricBase.init [3]); (1, E1); (2, E2);
        (3, Chain MetricBase.init [1; 2])]%nat)
    [].

(** A chain at 0 registered in itself after the recorder at 1. *)
Definition sample_store_self : state recorder :=
  mkState (list_to_map [(0, Chain MetricBase.init [1; 0]); (1, E1)]%nat) [].

(** A chain at 0 over two plain metrics. *)
Definition sample_store_plain : state recorder :=
  mkState
    (list_to_map
       [(0, Chain MetricBase.init [1; 2]); (1, Base MetricBase.init);
        (2, Base MetricBase.init)]%nat)
    [].

(** No key stands in two of the mappings. *)
Definition disjoint_keys (ds : list dict) : Prop :=
  forall (i j : nat) (d d' : dict) (k : string),
    i <> j -> ds !! i = Some d -> ds !! j = Some d' ->
    is_Some (d !! k) -> d' !! k = None.

(** A chain at 0 over the chain at 3 and the recorder at 1, which is also
    the child of the chain at 3: the children of 0 are distinct and open. *)
Definition sample_store_shared : state recorder :=
  mkState
    (list_to_map
       [(0, Chain MetricBase.init [3; 1]); (1, E1); (3, Chain MetricBase.init [1])]%nat)
    [].

(** * Properties *)

(** ** SHA-256 and [repr] on known values *)

Example sha256_constants :
  length Sha256.primes = 64%nat /\ last Sha256.primes = Some 311 /\
  head Sha256.K = Some 0x428a2f98 /\ last Sha256.K = Some 0xc67178f2 /\
  Sha256.H0.2 = 0x5be0cd19.
Proof. vm_compute. auto. Qed.

Example sha256_empty :
  Sha256.digest [] =
  [227; 176; 196; 66; 152; 252; 28; 20; 154; 251; 244; 200; 153; 111; 185; 36;
   39; 174; 65; 228; 100; 155; 147; 76; 164; 149; 153; 27; 120; 82; 184; 85].
Proof. vm_compute. reflexivity. Qed.

Example sha256_abc :
  Sha256.digest [97; 98; 99] =
  [186; 120; 22; 191; 143; 1; 207; 234; 65; 65; 64; 222; 93; 174; 34; 35;
   176; 3; 97; 163; 150; 23; 122; 156; 180; 16; 255; 97; 242; 0; 21; 173].
Proof. vm_compute. reflexivity. Qed.

Example sha256_two_blocks :
  Sha256.digest (map Z.of_nat (seq 0 70)) =
  [87; 103; 214; 154; 144; 109; 72; 96; 219; 144; 121; 235; 126; 144; 171; 74;
   84; 62; 92; 176; 50; 252; 232; 70; 85; 74; 239; 108; 235; 96; 14; 29].
Proof. vm_compute. reflexivity. Qed.


Example repr_str_escapes :
  map (fun c => PyStr.encode (repr (String (PyStr.chr c) EmptyString)))
    [0; 9; 10; 13; 31; 34; 39; 92; 127; 128; 160; 161; 173; 255] =
  [[39; 92; 120; 48; 48; 39]; [39; 92; 116; 39]; [39; 92; 110; 39];
   [39; 92; 114; 39]; [39; 92; 120; 49; 102; 39]; [39; 34; 39]; [34; 39; 34];
   [39; 92; 92; 39]; [39; 92; 120; 55; 102; 39]; [39; 92; 120; 56; 48; 39];
   [39; 92; 120; 97; 48; 39]; [39; 194; 161; 39]; [39; 92; 120; 97; 100; 39];
   [39; 195; 191; 39]].
Proof. vm_compute. reflexivity. Qed.

Example repr_str_samples :
  PyStr.encode (repr "hello") = [39; 104; 101; 108; 108; 111; 39] /\
  PyStr.encode (repr "it's") = [34; 105; 116; 39; 115; 34] /\
  repr [1; -2; 3] = "[1, -2, 3]" /\
  repr [[1]; []] = "[[1], []]" /\
  repr ["a"%string] = "['a']".
Proof. vm_compute. auto 10. Qed.

(** ** The accumulator *)

Section Accumulator.
Import UnorderedSha256.

Lemma land_255_mod (x : Z) : Z.land x 0xFF = x mod 256.
Proof. change 0xFF with (Z.ones 8). rewrite Z.land_ones by lia. reflexivity. Qed.

Lemma add_bytes_comm (r a b : list Z) :
  add_bytes (add_bytes r a) b = add_bytes (add_bytes r b) a.
Proof.
  revert a b. induction r as [|x r IH]; intros a b.
  - destruct a, b; reflexivity.
  - destruct a as [|y a], b as [|z b]; simpl; try reflexivity.
    rewrite IH. f_equal.
    rewrite !land_255_mod, !Zplus_mod_idemp_l. f_equal. lia.
Qed.

Lemma update_hash_comm (self : t) (h1 h2 : bytes) :
  update_hash (update_hash self h1) h2 = update_hash (update_hash self h2) h1.
Proof. unfold update_hash. simpl. f_equal. apply add_bytes_comm. Qed.

Lemma update_data_comm (self : t) (d1 d2 : bytes) :
  update_data (update_data self d1) d2 = update_data (update_data self d2) d1.
Proof. apply update_hash_comm. Qed.

End Accumulator.

(** ** Folding in any order *)

Section CommutativeFold.
Variables (St A : Type) (f : St -> A -> St).
Hypothesis f_comm : forall s x y, f (f s x) y = f (f s y) x.

(** A fold whose steps commute gives the same result on the permutations
    of a list. *)
Lemma fold_left_perm (l1 l2 : list A) :
  Permutation l1 l2 -> forall s, fold_left f l1 s = fold_left f l2 s.
Proof.
  induction 1 as [|x l1 l2 _ IH|x y l|l1 l2 l3 _ IH1 _ IH2]; intros s; simpl.
  - reflexivity.
  - apply IH.
  - rewrite f_comm. reflexivity.
  - rewrite IH1. apply IH2.
Qed.

End CommutativeFold.

(** ** The fingerprint of a metric *)

Section Fingerprint.
Context {A : Type} `{Repr A}.
Import MetricBase.

Lemma hash_relevant_data_fold (self : t) (l : list A) :
  _hash_relevant_data self l = fold_left hash_item l self.
Proof. reflexivity. Qed.

Lemma hash_item_comm (self : t) (x y : A) :
  hash_item (hash_item self x) y = hash_item (hash_item self y) x.
Proof. unfold hash_item. simpl. f_equal. apply update_data_comm. Qed.

Lemma hash_relevant_data_perm (l1 l2 : list A) :
  Permutation l1 l2 ->
  forall self, _hash_relevant_data self l1 = _hash_relevant_data self l2.
Proof.
  intros Hperm self. rewrite !hash_relevant_data_fold.
  apply (fold_left_perm _ _ _ hash_item_comm _ _ Hperm).
Qed.

Lemma hash_relevant_data_app (self : t) (l1 l2 : list A) :
  _hash_relevant_data self (l1 ++ l2) =
  _hash_relevant_data (_hash_relevant_data self l1) l2.
Proof. rewrite !hash_relevant_data_fold. apply fold_left_app. Qed.

(** Calls of [_hash_relevant_data], one per batch, fold the records of all
    the batches. *)
Lemma hash_batches_concat (batches : list (list A)) :
  forall self,
    fold_left _hash_relevant_data batches self =
    _hash_relevant_data self (concat batches).
Proof.
  induction batches as [|b batches IH]; intros self; simpl.
  - reflexivity.
  - rewrite IH, hash_relevant_data_app. reflexivity.
Qed.

Lemma hash_relevant_data_closed (l : list A) :
  forall self, closed (_hash_relevant_data self l) = closed self.
Proof.
  induction l as [|x l IH]; intros self; [reflexivity|].
  rewrite hash_relevant_data_fold. simpl. rewrite <- hash_relevant_data_fold.
  rewrite IH. reflexivity.
Qed.

(** C1: the records of one multiset, fed through [_hash_relevant_data] in
    two orders and under two groupings into batches, leave the same digest
    in [_hashvalue]. *)
Theorem fingerprint_order_independent
    (self : t) (batches1 batches2 : list (list A)) :
  Permutation (concat batches1) (concat batches2) ->
  _hashvalue (fold_left _hash_relevant_data batches1 self) =
  _hashvalue (fold_left _hash_relevant_data batches2 self).
Proof.
  intros Hperm. rewrite !hash_batches_concat.
  rewrite (hash_relevant_data_perm _ _ Hperm). reflexivity.
Qed.

End Fingerprint.

Lemma fingerprint_order_independent_witness :
  Permutation (concat [["hello"%string]; ["world"%string]])
              (concat [["world"%string; "hello"%string]]) /\
  MetricBase._hashvalue
    (fold_left MetricBase._hash_relevant_data
       [["hello"%string]; ["world"%string]] MetricBase.init) =
  MetricBase._hashvalue
    (fold_left MetricBase._hash_relevant_data
       [["world"%string; "hello"%string]] MetricBase.init).
Proof.
  assert (Hp : Permutation (concat [["hello"%string]; ["world"%string]])
                           (concat [["world"%string; "hello"%string]]))
    by (simpl; apply perm_swap).
  split; [exact Hp|].
  apply (fingerprint_order_independent MetricBase.init _ _ Hp).
Defined.

(** ** Sensitivity to multiplicity *)

Section Multiplicity.
Import UnorderedSha256.

Lemma land_255_byte (x : Z) : is_byte (Z.land x 0xFF).
Proof. rewrite land_255_mod. unfold is_byte. apply Z.mod_pos_bound. lia. Qed.

Lemma be32_bytes (x : Z) : Forall is_byte (Sha256.be32 x).
Proof. unfold Sha256.be32. simpl. repeat constructor; apply land_255_byte. Qed.

Lemma regs_bytes_length (s : Sha256.regs) : length (Sha256.regs_bytes s) = 32%nat.
Proof. destruct s as [[[[[[[a b] c] d] e] f] g] h]. reflexivity. Qed.

Lemma regs_bytes_bytes (s : Sha256.regs) : Forall is_byte (Sha256.regs_bytes s).
Proof.
  destruct s as [[[[[[[a b] c] d] e] f] g] h]. unfold Sha256.regs_bytes.
  repeat (apply Forall_app; split); apply be32_bytes.
Qed.

Lemma sha256_digest_length (data : bytes) : length (Sha256.digest data) = 32%nat.
Proof. apply regs_bytes_length. Qed.

Lemma sha256_digest_bytes (data : bytes) : Forall is_byte (Sha256.digest data).
Proof. apply regs_bytes_bytes. Qed.

Lemma add_bytes_length (r h : list Z) : length (add_bytes r h) = length r.
Proof.
  revert h. induction r as [|x r IH]; intros [|y h]; simpl; try reflexivity.
  rewrite IH. reflexivity.
Qed.

Lemma add_bytes_bytes (r h : list Z) :
  Forall is_byte r -> Forall is_byte (add_bytes r h).
Proof.
  intros Hr. revert h. induction Hr as [|x r Hx Hr IH]; intros [|y h]; simpl.
  - constructor.
  - constructor.
  - constructor; assumption.
  - constructor; [apply land_255_byte | apply IH].
Qed.

(** A merge that leaves the running state as it was merged zeros only. *)
Lemma add_bytes_fixed (r h : list Z) :
  Forall is_byte r -> Forall is_byte h -> length r = length h ->
  add_bytes r h = r -> h = replicate (length h) 0.
Proof.
  intros Hr. revert h.
  induction Hr as [|x r Hx Hr IH]; intros [|y h] Hh Hlen Heq;
    simpl in *; try discriminate; try reflexivity.
  inversion Hh as [|? ? Hy Hh']; subst.
  injection Heq as Hxy Hrest. injection Hlen as Hlen.
  rewrite <- (IH h Hh' Hlen Hrest). f_equal.
  rewrite land_255_mod in Hxy. unfold is_byte in *.
  assert (Hq : (x + y) mod 256 = x + y - 256 * ((x + y) / 256))
    by (rewrite Z.mod_eq by lia; reflexivity).
  assert (0 <= (x + y) / 256 < 2)
    by (split; [apply Z.div_pos; lia | apply Z.div_lt_upper_bound; lia]).
  lia.
Qed.

Lemma init_ok : acc_ok init.
Proof. split; [reflexivity|]. simpl. repeat constructor; unfold is_byte; lia. Qed.

Lemma update_data_ok (u : t) (data : bytes) : acc_ok u -> acc_ok (update_data u data).
Proof.
  intros [Hl Hb]. split; simpl.
  - rewrite add_bytes_length. exact Hl.
  - apply add_bytes_bytes, Hb.
Qed.

Lemma hash_relevant_data_ok {A} `{Repr A} (l : list A) :
  forall self, acc_ok (MetricBase.unordered_hash self) ->
    acc_ok (MetricBase.unordered_hash (MetricBase._hash_relevant_data self l)).
Proof.
  induction l as [|x l IH]; intros self Hok; [exact Hok|].
  apply (IH (MetricBase.hash_item self x)). simpl. apply update_data_ok, Hok.
Qed.

Lemma update_data_changes (u : t) (data : bytes) :
  acc_ok u -> Sha256.digest data <> replicate 32 0 ->
  digest (update_data u data) <> digest u.
Proof.
  intros [Hl Hb] Hnz Heq. apply Hnz.
  rewrite <- (sha256_digest_length data).
  apply (add_bytes_fixed (result u)); auto using sha256_digest_bytes.
  rewrite Hl, sha256_digest_length. reflexivity.
Qed.

End Multiplicity.

Lemma hello_digest_nonzero :
  Sha256.digest (PyStr.encode (repr "hello"%string)) <> replicate 32 0.
Proof. vm_compute. discriminate. Qed.

(** C5, as amended: one more copy of a record changes the digest whenever
    the SHA-256 digest of the record's serialisation is not 32 zero bytes;
    so the digests of A, A, B and of A, B differ for such an A, and the
    digest of "hello", "hello", "world" is not the digest of "hello",
    "world". *)
Theorem fingerprint_extra_copy :
  (forall (A : Type) (R : Repr A) (x : A) (l : list A),
      Sha256.digest (PyStr.encode (repr x)) <> replicate 32 0 ->
      MetricBase._hashvalue (MetricBase._hash_relevant_data MetricBase.init (x :: l)) <>
      MetricBase._hashvalue (MetricBase._hash_relevant_data MetricBase.init l)) /\
  MetricBase._hashvalue
    (MetricBase._hash_relevant_data MetricBase.init
       ["hello"%string; "hello"%string; "world"%string]) <>
  MetricBase._hashvalue
    (MetricBase._hash_relevant_data MetricBase.init
       ["hello"%string; "world"%string]).
Proof.
  assert (Hgen : forall (A : Type) (R : Repr A) (x : A) (l : list A),
      Sha256.digest (PyStr.encode (repr x)) <> replicate 32 0 ->
      MetricBase._hashvalue (MetricBase._hash_relevant_data MetricBase.init (x :: l)) <>
      MetricBase._hashvalue (MetricBase._hash_relevant_data MetricBase.init l)).
  { intros A R x l Hnz.
    rewrite (hash_relevant_data_perm (x :: l) (l ++ [x]))
      by (rewrite Permutation_app_comm; reflexivity).
    rewrite hash_relevant_data_app. unfold MetricBase._hashvalue.
    change (MetricBase.unordered_hash
              (MetricBase._hash_relevant_data
                 (MetricBase._hash_relevant_data MetricBase.init l) [x]))
      with (UnorderedSha256.update_data
              (MetricBase.unordered_hash
                 (MetricBase._hash_relevant_data MetricBase.init l))
              (PyStr.encode (repr x))).
    apply update_data_changes; [|exact Hnz].
    apply hash_relevant_data_ok, init_ok. }
  split; [exact Hgen|].
  apply (Hgen string _ "hello"%string), hello_digest_nonzero.
Qed.

Lemma fingerprint_extra_copy_witness :
  Sha256.digest (PyStr.encode (repr "hello"%string)) <> replicate 32 0 /\
  MetricBase._hashvalue
    (MetricBase._hash_relevant_data MetricBase.init
       ["hello"%string; "world"%string; "world"%string]) <>
  MetricBase._hashvalue
    (MetricBase._hash_relevant_data MetricBase.init
       ["world"%string; "world"%string]).
Proof.
  split; [exact hello_digest_nonzero|].
  apply (proj1 fingerprint_extra_copy string _ "hello"%string
           ["world"%string; "world"%string]).
  vm_compute. discriminate.
Defined.

(** C5, as stated, fails: 257 copies of "hello" with one "world" and one
    copy of "hello" with one "world" differ in the multiplicity of "hello"
    and have the same digest. *)
Lemma fingerprint_multiplicity_collision :
  count_occ String.string_dec (replicate 257 "hello"%string ++ ["world"%string])
    "hello"%string = 257%nat /\
  count_occ String.string_dec ["hello"%string; "world"%string]
    "hello"%string = 1%nat /\
  MetricBase._hashvalue
    (MetricBase._hash_relevant_data MetricBase.init
       (replicate 257 "hello"%string ++ ["world"%string])) =
  MetricBase._hashvalue
    (MetricBase._hash_relevant_data MetricBase.init
       ["hello"%string; "world"%string]).
Proof. vm_compute. auto. Qed.

(** ** Calls on the store *)

Section Calls.
Context {X : Type} `{Subclass X}.
Implicit Types (σ : state X) (h : gmap ref (object X)) (o : object X).
Implicit Types (r c m : ref) (depth : nat) (data : pyval).

Lemma call_forward_Base depth r data σ self :
  heap σ !! r = Some (Base self) ->
  call_forward (S depth) r data σ =
  (MetricBase.forward self data, logged (CallForward r data) σ).
Proof.
  intros Hr. cbn. unfold bind, log, lookup_object. cbn. rewrite Hr. reflexivity.
Qed.

Lemma call_forward_Sub depth r data σ self attrs :
  heap σ !! r = Some (Sub self attrs) ->
  call_forward (S depth) r data σ =
  (fst (sub_forward self attrs data),
   mkState (<[r := Sub (fst (snd (sub_forward self attrs data)))
                      (snd (snd (sub_forward self attrs data)))]> (heap σ))
           (calls σ ++ [CallForward r data])).
Proof.
  intros Hr. cbn. unfold bind, log, lookup_object. cbn. rewrite Hr.
  destruct (sub_forward self attrs data) as [res [self' attrs']]. reflexivity.
Qed.

Lemma call_forward_Chain depth r data σ self ml :
  heap σ !! r = Some (Chain self ml) ->
  call_forward (S depth) r data σ =
  MetricChain.forward (call_forward depth) self ml data
    (logged (CallForward r data) σ).
Proof.
  intros Hr. cbn. unfold bind at 1 2, log, lookup_object. cbn. rewrite Hr.
  reflexivity.
Qed.

Lemma call_close_Base depth r σ self :
  heap σ !! r = Some (Base self) ->
  call_close (S depth) r σ =
  match MetricBase.close self with
  | (inr res, self') =>
      (inr res, mkState (<[r := Base self']> (heap σ)) (calls σ ++ [CallClose r]))
  | (inl e, _) => (inl e, logged (CallClose r) σ)
  end.
Proof.
  intros Hr. cbn. unfold bind, log, lookup_object. cbn. rewrite Hr.
  destruct (MetricBase.close self) as [[e|res] self']; reflexivity.
Qed.

Lemma call_close_Sub depth r σ self attrs :
  heap σ !! r = Some (Sub self attrs) ->
  call_close (S depth) r σ =
  (fst (sub_close self attrs),
   mkState (<[r := Sub (fst (snd (sub_close self attrs)))
                      (snd (snd (sub_close self attrs)))]> (heap σ))
           (calls σ ++ [CallClose r])).
Proof.
  intros Hr. cbn. unfold bind, log, lookup_object. cbn. rewrite Hr.
  destruct (sub_close self attrs) as [res [self' attrs']]. reflexivity.
Qed.

Lemma call_close_Chain depth r σ self ml :
  heap σ !! r = Some (Chain self ml) ->
  call_close (S depth) r σ =
  MetricChain.close (call_close depth) r self ml (logged (CallClose r) σ).
Proof.
  intros Hr. cbn. unfold bind at 1 2, log, lookup_object. cbn. rewrite Hr.
  reflexivity.
Qed.

Lemma call_forward_dangling depth r data σ :
  heap σ !! r = None ->
  call_forward (S depth) r data σ = (inl SystemError, logged (CallForward r data) σ).
Proof.
  intros Hr. cbn. unfold bind, log, lookup_object. cbn. rewrite Hr. reflexivity.
Qed.

Lemma call_close_dangling depth r σ :
  heap σ !! r = None ->
  call_close (S depth) r σ = (inl SystemError, logged (CallClose r) σ).
Proof.
  intros Hr. cbn. unfold bind, log, lookup_object. cbn. rewrite Hr. reflexivity.
Qed.

#[local] Arguments call_forward : simpl never.
#[local] Arguments call_close : simpl never.

(** *** Evolution of the store *)

Lemma obj_le_refl o : obj_le o o.
Proof. destruct o; simpl; auto. Qed.

Lemma obj_le_trans o1 o2 o3 : obj_le o1 o2 -> obj_le o2 o3 -> obj_le o1 o3.
Proof.
  destruct o1, o2, o3; simpl; try tauto.
  - intros [-> ?] [-> ?]. auto.
  - intros (-> & ? & ?) (-> & ? & ?). repeat split; auto. etrans; eauto.
Qed.

Lemma heap_le_refl h : heap_le h h.
Proof. intros r o Hr. exists o. split; [exact Hr | apply obj_le_refl]. Qed.

Lemma heap_le_trans h1 h2 h3 : heap_le h1 h2 -> heap_le h2 h3 -> heap_le h1 h3.
Proof.
  intros H12 H23 r o1 Hr1.
  destruct (H12 r o1 Hr1) as (o2 & Hr2 & Hle12).
  destruct (H23 r o2 Hr2) as (o3 & Hr3 & Hle23).
  exists o3. split; [exact Hr3 | eapply obj_le_trans; eauto].
Qed.

Lemma heap_le_insert h r o o' :
  h !! r = Some o -> obj_le o o' -> heap_le h (<[r := o']> h).
Proof.
  intros Hr Hle r' o1 Hr'. destruct (decide (r = r')) as [<-|Hne].
  - rewrite lookup_insert_eq. rewrite Hr in Hr'. injection Hr' as <-. eauto.
  - rewrite lookup_insert_ne by done. exists o1. split; [exact Hr' | apply obj_le_refl].
Qed.

Lemma heap_le_lookup h h' r o :
  heap_le h h' -> h !! r = Some o -> exists o', h' !! r = Some o' /\ obj_le o o'.
Proof. intros Hle Hr. exact (Hle r o Hr). Qed.

Lemma alloc_preserves o : preserves (alloc o).
Proof.
  intros σ r o1 Hr. simpl. exists o1. split; [|apply obj_le_refl].
  rewrite lookup_insert_ne; [exact Hr|].
  intros <-. pose proof (is_fresh (dom (heap σ))) as Hf.
  apply not_elem_of_dom in Hf. congruence.
Qed.

Lemma preserves_ret {A} (a : A) : preserves (ret (X := X) a).
Proof. intros σ. apply heap_le_refl. Qed.

Lemma preserves_raise {A} e : preserves (raise (X := X) (A := A) e).
Proof. intros σ. apply heap_le_refl. Qed.

Lemma preserves_lift {A} (x : exn + A) : preserves (lift (X := X) x).
Proof. intros σ. apply heap_le_refl. Qed.

Lemma preserves_log e : preserves (log (X := X) e).
Proof. intros σ. apply heap_le_refl. Qed.

Lemma preserves_bind {A B} (m : M X A) (k : A -> M X B) :
  preserves m -> (forall a, preserves (k a)) -> preserves (bind m k).
Proof.
  intros Hm Hk σ. unfold bind. specialize (Hm σ).
  destruct (m σ) as [[e|a] σ']; simpl in *; [exact Hm|].
  eapply heap_le_trans; [exact Hm | apply Hk].
Qed.

Lemma preserves_for_each {A} (f : A -> M X unit) (l : list A) :
  (forall x, preserves (f x)) -> preserves (for_each f l).
Proof.
  intros Hf. induction l as [|x l IH]; simpl.
  - apply preserves_ret.
  - apply preserves_bind; auto.
Qed.

Lemma preserves_for_fold {A B} (f : B -> A -> M X B) (l : list A) :
  (forall acc x, preserves (f acc x)) -> forall acc, preserves (for_fold f l acc).
Proof.
  intros Hf. induction l as [|x l IH]; intros acc; simpl.
  - apply preserves_ret.
  - apply preserves_bind; auto.
Qed.

Lemma call_forward_preserves depth : forall r data, preserves (call_forward depth r data).
Proof.
  induction depth as [|depth IH]; intros r data σ.
  - apply heap_le_refl.
  - destruct (heap σ !! r) as [[self|self ml|self attrs]|] eqn:Hr.
    + rewrite (call_forward_Base _ _ _ _ _ Hr). apply heap_le_refl.
    + rewrite (call_forward_Chain _ _ _ _ _ _ Hr).
      apply (preserves_bind _ _ (preserves_lift _)
               (fun _ => preserves_for_each _ _ (fun m => IH m data))
               (logged (CallForward r data) σ)).
    + rewrite (call_forward_Sub _ _ _ _ _ _ Hr). simpl.
      eapply heap_le_insert; [exact Hr | exact I].
    + rewrite (call_forward_dangling _ _ _ _ Hr). apply heap_le_refl.
Qed.

Lemma chain_close_preserves (call : ref -> M X dict) r self ml σ :
  (forall m, preserves (call m)) ->
  heap σ !! r = Some (Chain self ml) ->
  heap_le (heap σ) (heap (snd (MetricChain.close call r self ml σ))).
Proof.
  intros Hcall Hr. unfold MetricChain.close, MetricBase.close.
  destruct (MetricBase.closed self) eqn:Hc; simpl.
  - apply heap_le_refl.
  - unfold bind at 1, store. simpl.
    eapply heap_le_trans.
    + eapply (heap_le_insert _ _ _ (Chain (MetricBase.mk (MetricBase.unordered_hash self) true) ml)
                Hr).
      simpl. repeat split; auto.
    + apply (preserves_for_fold _ _
               (fun res m => preserves_bind _ _ (Hcall m) (fun _ => preserves_ret _))
               ∅ (mkState _ _)).
Qed.

Lemma call_close_preserves depth : forall r, preserves (call_close depth r).
Proof.
  induction depth as [|depth IH]; intros r σ.
  - apply heap_le_refl.
  - destruct (heap σ !! r) as [[self|self ml|self attrs]|] eqn:Hr.
    + rewrite (call_close_Base _ _ _ _ Hr). unfold MetricBase.close.
      destruct (MetricBase.closed self) eqn:Hc; simpl.
      * apply heap_le_refl.
      * eapply heap_le_insert; [exact Hr|]. simpl. auto.
    + rewrite (call_close_Chain _ _ _ _ _ Hr).
      apply (chain_close_preserves _ _ _ _ (logged (CallClose r) σ) IH Hr).
    + rewrite (call_close_Sub _ _ _ _ _ Hr). simpl.
      eapply heap_le_insert; [exact Hr | exact I].
    + rewrite (call_close_dangling _ _ _ Hr). apply heap_le_refl.
Qed.

Lemma add_metric_preserves r metric :
  preserves (MetricChain.add_metric (X := X) r metric).
Proof.
  intros σ. unfold MetricChain.add_metric, bind, lookup_object.
  destruct (heap σ !! r) as [[self|self ml|self attrs]|] eqn:Hr; simpl;
    try apply heap_le_refl.
  destruct (MetricChain.is_metric σ metric) as [m|]; simpl.
  - eapply heap_le_insert; [exact Hr|]. simpl. repeat split; auto.
    apply prefix_app_r. reflexivity.
  - apply heap_le_refl.
Qed.

Lemma run_call_preserves depth (c : call X) σ :
  heap_le (heap σ) (heap (run_call depth c σ)).
Proof.
  destruct c; simpl.
  - apply alloc_preserves.
  - apply alloc_preserves.
  - apply alloc_preserves.
  - apply call_forward_preserves.
  - apply call_close_preserves.
  - apply add_metric_preserves.
Qed.

Lemma run_calls_preserves depth (cs : list (call X)) :
  forall σ, heap_le (heap σ) (heap (run_calls depth cs σ)).
Proof.
  induction cs as [|c cs IH]; intros σ; simpl.
  - apply heap_le_refl.
  - eapply heap_le_trans; [apply run_call_preserves | apply IH].
Qed.

(** *** The closed flag *)

Lemma closed_forward_raises depth r data σ o :
  heap σ !! r = Some o -> source_class o = true ->
  MetricBase.closed (obj_base o) = true ->
  call_forward (S depth) r data σ =
  (inl (ValueError MetricBase.closed_msg), logged (CallForward r data) σ).
Proof.
  intros Hr Hsrc Hc. destruct o as [self|self ml|self attrs]; [| |discriminate].
  - rewrite (call_forward_Base _ _ _ _ _ Hr). unfold MetricBase.forward.
    simpl in Hc. rewrite Hc. reflexivity.
  - rewrite (call_forward_Chain _ _ _ _ _ _ Hr).
    unfold MetricChain.forward, bind, lift, MetricBase.forward.
    simpl in Hc. rewrite Hc. reflexivity.
Qed.

Lemma closed_close_raises depth r σ o :
  heap σ !! r = Some o -> source_class o = true ->
  MetricBase.closed (obj_base o) = true ->
  call_close (S depth) r σ =
  (inl (RuntimeError MetricBase.closed_msg), logged (CallClose r) σ).
Proof.
  intros Hr Hsrc Hc. destruct o as [self|self ml|self attrs]; [| |discriminate].
  - rewrite (call_close_Base _ _ _ _ Hr). unfold MetricBase.close.
    simpl in Hc. rewrite Hc. reflexivity.
  - rewrite (call_close_Chain _ _ _ _ _ Hr).
    unfold MetricChain.close, MetricBase.close.
    simpl in Hc. rewrite Hc. reflexivity.
Qed.

(** An instance of a class of this module that is closed stays one. *)
Lemma obj_le_closed o o' :
  obj_le o o' -> source_class o = true -> MetricBase.closed (obj_base o) = true ->
  source_class o' = true /\ MetricBase.closed (obj_base o') = true.
Proof.
  destruct o, o'; simpl; try tauto; discriminate.
Qed.

Lemma heap_le_closed h h' r o :
  heap_le h h' -> h !! r = Some o ->
  source_class o = true -> MetricBase.closed (obj_base o) = true ->
  exists o', h' !! r = Some o' /\ source_class o' = true /\
             MetricBase.closed (obj_base o') = true.
Proof.
  intros Hle Hr Hsrc Hc.
  destruct (heap_le_lookup _ _ _ _ Hle Hr) as (o' & Hr' & Hoo).
  exists o'. split; [exact Hr'|]. eapply obj_le_closed; eauto.
Qed.

(** After a [close] that returned, the object is closed. *)
Lemma close_returns_closed depth r σ0 o res σ :
  heap σ0 !! r = Some o -> source_class o = true ->
  call_close depth r σ0 = (inr res, σ) ->
  exists o', heap σ !! r = Some o' /\ source_class o' = true /\
             MetricBase.closed (obj_base o') = true.
Proof.
  intros Hr Hsrc Hcall. destruct depth as [|depth]; [discriminate|].
  destruct o as [self|self ml|self attrs]; [| |discriminate].
  - rewrite (call_close_Base _ _ _ _ Hr) in Hcall. unfold MetricBase.close in Hcall.
    destruct (MetricBase.closed self); simpl in Hcall; [discriminate|].
    injection Hcall as _ <-. simpl. rewrite lookup_insert_eq. eauto.
  - rewrite (call_close_Chain _ _ _ _ _ Hr) in Hcall.
    unfold MetricChain.close, MetricBase.close in Hcall.
    destruct (MetricBase.closed self) eqn:Hc; simpl in Hcall; [discriminate|].
    unfold bind at 1, store in Hcall. simpl in Hcall.
    match type of Hcall with
    | for_fold ?f ?l ?a ?s = _ =>
        pose proof (preserves_for_fold f l
          (fun res m => preserves_bind _ _ (call_close_preserves depth m)
                          (fun _ => preserves_ret _)) a s) as Hle
    end.
    rewrite Hcall in Hle. simpl in Hle.
    eapply (heap_le_closed _ _ r) in Hle;
      [exact Hle | apply lookup_insert_eq | reflexivity | reflexivity].
Qed.

(** *** Lifecycle of a metric *)

(** C2: once [close] has returned on an instance of [MetricBase] or of
    [MetricChain], whatever calls follow anywhere in the store, [forward]
    raises [ValueError] and [close] raises [RuntimeError], both with the
    message "The metric has been closed."; the failing call leaves every
    object as it was, and the same call made again raises the same
    exception. *)
Theorem closed_metric_rejects_calls depth0 r σ0 o res σ :
  heap σ0 !! r = Some o -> source_class o = true ->
  call_close depth0 r σ0 = (inr res, σ) ->
  forall depth' (cs : list (call X)) depth data,
    let σ' := run_calls depth' cs σ in
    let after_forward := snd (call_forward (S depth) r data σ') in
    let after_close := snd (call_close (S depth) r σ') in
    fst (call_forward (S depth) r data σ') = inl (ValueError MetricBase.closed_msg) /\
    heap after_forward = heap σ' /\
    fst (call_forward (S depth) r data after_forward)
      = inl (ValueError MetricBase.closed_msg) /\
    fst (call_close (S depth) r σ') = inl (RuntimeError MetricBase.closed_msg) /\
    heap after_close = heap σ' /\
    fst (call_close (S depth) r after_close)
      = inl (RuntimeError MetricBase.closed_msg).
Proof.
  intros Hr Hsrc Hclose depth' cs depth data σ' after_forward after_close.
  destruct (close_returns_closed _ _ _ _ _ _ Hr Hsrc Hclose) as (o1 & Hr1 & Hsrc1 & Hc1).
  destruct (heap_le_closed _ _ _ _ (run_calls_preserves depth' cs σ) Hr1 Hsrc1 Hc1)
    as (o2 & Hr2 & Hsrc2 & Hc2).
  fold σ' in Hr2.
  subst after_forward after_close.
  rewrite (closed_forward_raises depth r data σ' o2 Hr2 Hsrc2 Hc2).
  rewrite (closed_close_raises depth r σ' o2 Hr2 Hsrc2 Hc2). cbn [fst snd].
  rewrite (closed_forward_raises depth r data (logged _ σ') o2 Hr2 Hsrc2 Hc2).
  rewrite (closed_close_raises depth r (logged _ σ') o2 Hr2 Hsrc2 Hc2).
  cbn [fst snd]. repeat split; reflexivity.
Qed.

(** C7: on an open instance of [MetricBase] or of [MetricChain], [forward]
    with an argument that is not a [dict] raises [TypeError], and the
    object, like every object of the store, is as before the call. *)
Theorem forward_non_dict_raises depth r data σ o :
  heap σ !! r = Some o -> source_class o = true ->
  MetricBase.closed (obj_base o) = false -> is_dict data = false ->
  fst (call_forward (S depth) r data σ) = inl (TypeError "Data must be a dict.") /\
  heap (snd (call_forward (S depth) r data σ)) = heap σ /\
  heap (snd (call_forward (S depth) r data σ)) !! r = Some o.
Proof.
  intros Hr Hsrc Hc Hd.
  assert (Hcall : call_forward (S depth) r data σ =
                  (inl (TypeError "Data must be a dict."), logged (CallForward r data) σ)).
  { destruct o as [self|self ml|self attrs]; [| |discriminate]; simpl in Hc.
    - rewrite (call_forward_Base _ _ _ _ _ Hr). unfold MetricBase.forward.
      rewrite Hc, Hd. reflexivity.
    - rewrite (call_forward_Chain _ _ _ _ _ _ Hr).
      unfold MetricChain.forward, bind, lift, MetricBase.forward.
      rewrite Hc, Hd. reflexivity. }
  rewrite Hcall. cbn [fst snd logged heap]. auto.
Qed.

Lemma fresh_close_returns depth σ (o closed_o : object X) :
  (o = Base MetricBase.init /\
   closed_o = Base (MetricBase.mk UnorderedSha256.init true)) \/
  (o = Chain MetricBase.init [] /\
   closed_o = Chain (MetricBase.mk UnorderedSha256.init true) []) ->
  exists r σ1 σ2,
    alloc o σ = (inr r, σ1) /\
    call_close (S depth) r σ1 = (inr ∅, σ2) /\
    heap σ2 !! r = Some closed_o /\
    forall depth' (cs : list (call X)) depth'' data,
      (exists o', heap (run_calls depth' cs σ2) !! r = Some o' /\
                  MetricBase.closed (obj_base o') = true) /\
      fst (call_forward (S depth'') r data (run_calls depth' cs σ2))
        = inl (ValueError MetricBase.closed_msg) /\
      fst (call_close (S depth'') r (run_calls depth' cs σ2))
        = inl (RuntimeError MetricBase.closed_msg).
Proof.
  intros Ho.
  set (r := fresh (dom (heap σ))).
  set (σ1 := mkState (<[r := o]> (heap σ)) (calls σ)).
  assert (Hr : heap σ1 !! r = Some o) by apply lookup_insert_eq.
  assert (Hsrc : source_class o = true)
    by (destruct Ho as [[-> _]|[-> _]]; reflexivity).
  assert (Hcall : exists σ2, call_close (S depth) r σ1 = (inr ∅, σ2) /\
                             heap σ2 !! r = Some closed_o).
  { destruct Ho as [[-> ->]|[-> ->]].
    - rewrite (call_close_Base _ _ _ _ Hr). simpl.
      eexists. split; [reflexivity|]. simpl. apply lookup_insert_eq.
    - rewrite (call_close_Chain _ _ _ _ _ Hr). unfold MetricChain.close. simpl.
      unfold bind, store, ret. simpl.
      eexists. split; [reflexivity|]. simpl. apply lookup_insert_eq. }
  destruct Hcall as (σ2 & Hcall & Hr2).
  exists r, σ1, σ2. split; [reflexivity|]. split; [exact Hcall|]. split; [exact Hr2|].
  destruct (close_returns_closed _ _ _ _ _ _ Hr Hsrc Hcall) as (o1 & Hr1 & Hsrc1 & Hc1).
  intros depth' cs depth'' data.
  destruct (heap_le_closed _ _ _ _ (run_calls_preserves depth' cs σ2) Hr1 Hsrc1 Hc1)
    as (o3 & Hr3 & Hsrc3 & Hc3).
  split; [eauto|].
  rewrite (closed_forward_raises depth'' r data _ o3 Hr3 Hsrc3 Hc3).
  rewrite (closed_close_raises depth'' r _ o3 Hr3 Hsrc3 Hc3). auto.
Qed.

(** C6: on a metric just built by [MetricBase()], and on a chain just
    built by [MetricChain()], the first [close] returns the empty mapping
    and leaves the object closed; whatever calls follow, it stays closed,
    and [forward] and [close] on it raise. *)
Theorem fresh_metric_close depth σ :
  (exists r σ1 σ2,
      new_MetricBase σ = (inr r, σ1) /\
      call_close (S depth) r σ1 = (inr ∅, σ2) /\
      heap σ2 !! r = Some (Base (MetricBase.mk UnorderedSha256.init true)) /\
      forall depth' (cs : list (call X)) depth'' data,
        (exists o', heap (run_calls depth' cs σ2) !! r = Some o' /\
                    MetricBase.closed (obj_base o') = true) /\
        fst (call_forward (S depth'') r data (run_calls depth' cs σ2))
          = inl (ValueError MetricBase.closed_msg) /\
        fst (call_close (S depth'') r (run_calls depth' cs σ2))
          = inl (RuntimeError MetricBase.closed_msg)) /\
  (exists r σ1 σ2,
      new_MetricChain σ = (inr r, σ1) /\
      call_close (S depth) r σ1 = (inr ∅, σ2) /\
      heap σ2 !! r = Some (Chain (MetricBase.mk UnorderedSha256.init true) []) /\
      forall depth' (cs : list (call X)) depth'' data,
        (exists o', heap (run_calls depth' cs σ2) !! r = Some o' /\
                    MetricBase.closed (obj_base o') = true) /\
        fst (call_forward (S depth'') r data (run_calls depth' cs σ2))
          = inl (ValueError MetricBase.closed_msg) /\
        fst (call_close (S depth'') r (run_calls depth' cs σ2))
          = inl (RuntimeError MetricBase.closed_msg)).
Proof.
  split.
  - apply (fresh_close_returns depth σ (Base MetricBase.init)). left. auto.
  - apply (fresh_close_returns depth σ (Chain MetricBase.init [])). right. auto.
Qed.

(** *** Calls on objects that are not chains *)

Lemma call_forward_leaf depth r data σ o res o' :
  heap σ !! r = Some o -> leaf_forward o data = Some (res, o') ->
  call_forward (S depth) r data σ =
  (res, mkState (<[r := o']> (heap σ)) (calls σ ++ [CallForward r data])).
Proof.
  intros Hr Hleaf. destruct o as [self|self ml|self attrs]; simpl in Hleaf.
  - injection Hleaf as <- <-. rewrite (call_forward_Base _ _ _ _ _ Hr).
    unfold logged. rewrite (insert_id _ _ _ Hr). reflexivity.
  - discriminate.
  - rewrite (call_forward_Sub _ _ _ _ _ _ Hr).
    destruct (sub_forward self attrs data) as [res0 [self' attrs']].
    injection Hleaf as <- <-. reflexivity.
Qed.

Lemma call_close_leaf depth r σ o res o' :
  heap σ !! r = Some o -> leaf_close o = Some (res, o') ->
  call_close (S depth) r σ =
  (res, mkState (<[r := o']> (heap σ)) (calls σ ++ [CallClose r])).
Proof.
  intros Hr Hleaf. destruct o as [self|self ml|self attrs]; simpl in Hleaf.
  - rewrite (call_close_Base _ _ _ _ Hr).
    destruct (MetricBase.close self) as [[e|d] self']; injection Hleaf as <- <-.
    + unfold logged. rewrite (insert_id _ _ _ Hr). reflexivity.
    + reflexivity.
  - discriminate.
  - rewrite (call_close_Sub _ _ _ _ _ Hr).
    destruct (sub_close self attrs) as [res0 [self' attrs']].
    injection Hleaf as <- <-. reflexivity.
Qed.

Lemma updated_nil h : updated [] [] h = h.
Proof. unfold updated. simpl. apply (left_id_L ∅ (∪)). Qed.

Lemma updated_lookup_notin ms os h r : r ∉ ms -> updated ms os h !! r = h !! r.
Proof.
  intros Hr. unfold updated. apply lookup_union_r.
  apply not_elem_of_list_to_map_1. intros Hin. apply Hr.
  apply list_elem_of_fmap in Hin as [[m o] [-> Hin]].
  apply elem_of_zip_l in Hin. exact Hin.
Qed.

Lemma updated_cons m o ms os h :
  m ∉ ms -> updated ms os (<[m := o]> h) = updated (m :: ms) (o :: os) h.
Proof.
  intros Hm. unfold updated. simpl.
  rewrite <- insert_union_l. rewrite <- insert_union_r; [reflexivity|].
  apply not_elem_of_list_to_map_1. intros Hin. apply Hm.
  apply list_elem_of_fmap in Hin as [[m' o'] [-> Hin]].
  apply elem_of_zip_l in Hin. exact Hin.
Qed.

Lemma updated_snoc m o ms os h :
  length ms = length os -> m ∉ ms ->
  <[m := o]> (updated ms os h) = updated (ms ++ [m]) (os ++ [o]) h.
Proof.
  intros Hlen Hm. revert os Hlen. induction ms as [|m' ms IH]; intros [|o' os] Hlen;
    try discriminate.
  - rewrite updated_nil. unfold updated. simpl.
    rewrite <- insert_union_l, (left_id_L ∅ (∪)). reflexivity.
  - simpl. apply not_elem_of_cons in Hm as [Hne Hm].
    unfold updated in *. simpl. rewrite <- !insert_union_l.
    rewrite insert_insert_ne by done. f_equal.
    apply IH; [exact Hm | simpl in Hlen; lia].
Qed.

(** The hypothesis on a list of children that are not chains: each is in
    the store, and the call on it has the outcome and leaves the object
    given for it. *)
Lemma children_insert_ne {A} (step : object X -> option (A * object X))
    (m0 : ref) (o0 : object X) h (ms : list ref) (outs : list (A * object X)) :
  m0 ∉ ms ->
  Forall2 (fun m out => exists o, h !! m = Some o /\ step o = Some out) ms outs ->
  Forall2 (fun m out => exists o, <[m0 := o0]> h !! m = Some o /\ step o = Some out)
    ms outs.
Proof.
  intros Hm H2. induction H2 as [|m out ms outs (o & Ho & Hs) H2 IH].
  - constructor.
  - apply not_elem_of_cons in Hm as [Hne Hm]. constructor; [|auto].
    exists o. rewrite lookup_insert_ne by done. auto.
Qed.

Lemma children_not_chain {A} (step : object X -> option (A * object X))
    (c : ref) self ml h (ms : list ref) (outs : list (A * object X)) :
  h !! c = Some (Chain self ml) -> step (Chain self ml) = None ->
  Forall2 (fun m out => exists o, h !! m = Some o /\ step o = Some out) ms outs ->
  c ∉ ms.
Proof.
  intros Hc Hstep H2. induction H2 as [|m out ms outs (o & Ho & Hs) H2 IH].
  - apply not_elem_of_nil.
  - apply not_elem_of_cons. split; [|exact IH].
    intros <-. rewrite Hc in Ho. injection Ho as <-. congruence.
Qed.

Lemma for_each_app {A} (f : A -> M X unit) (l1 l2 : list A) σ :
  for_each f (l1 ++ l2) σ =
  match for_each f l1 σ with
  | (inr _, σ') => for_each f l2 σ'
  | (inl e, σ') => (inl e, σ')
  end.
Proof.
  revert σ. induction l1 as [|x l1 IH]; intros σ; simpl.
  - reflexivity.
  - unfold bind. destruct (f x σ) as [[e|[]] σ']; [reflexivity|]. apply IH.
Qed.

Lemma for_fold_app {A B} (f : B -> A -> M X B) (l1 l2 : list A) acc σ :
  for_fold f (l1 ++ l2) acc σ =
  match for_fold f l1 acc σ with
  | (inr acc', σ') => for_fold f l2 acc' σ'
  | (inl e, σ') => (inl e, σ')
  end.
Proof.
  revert acc σ. induction l1 as [|x l1 IH]; intros acc σ; simpl.
  - reflexivity.
  - unfold bind. destruct (f acc x σ) as [[e|acc'] σ']; [reflexivity|]. apply IH.
Qed.

(** The loop of [MetricChain.forward] over children that all return. *)
Lemma forward_leaves_return depth data (ml : list ref) (outs : list (object X)) :
  forall σ,
    NoDup ml ->
    Forall2 (fun m out => exists o, heap σ !! m = Some o /\
                                    leaf_forward o data = Some out)
      ml (map (fun o' => (inr tt, o')) outs) ->
    for_each (fun m => call_forward (S depth) m data) ml σ =
    (inr tt, mkState (updated ml outs (heap σ))
                     (calls σ ++ map (fun m => CallForward m data) ml)).
Proof.
  revert outs. induction ml as [|m ml IH]; intros outs σ Hnd H2.
  - apply Forall2_nil_inv_l in H2. destruct outs; [|discriminate].
    simpl. rewrite updated_nil, app_nil_r. destruct σ; reflexivity.
  - destruct outs as [|o' outs]; [inversion H2|]. simpl in H2.
    apply Forall2_cons_1 in H2 as [(o & Ho & Hleaf) H2].
    apply NoDup_cons in Hnd as [Hm Hnd].
    simpl. unfold bind. rewrite (call_forward_leaf _ _ _ _ _ _ _ Ho Hleaf).
    rewrite (IH outs); [|exact Hnd|].
    + simpl. rewrite updated_cons by exact Hm. rewrite <- app_assoc. reflexivity.
    + simpl. apply children_insert_ne; assumption.
Qed.

(** The loop of [MetricChain.forward] when the child after [l1] raises. *)
Lemma forward_leaves_raise depth data (l1 l2 : list ref) (outs1 : list (object X))
    m o e o' σ :
  NoDup (l1 ++ [m]) ->
  Forall2 (fun m out => exists o, heap σ !! m = Some o /\
                                  leaf_forward o data = Some out)
    l1 (map (fun o' => (inr tt, o')) outs1) ->
  heap σ !! m = Some o -> leaf_forward o data = Some (inl e, o') ->
  for_each (fun m => call_forward (S depth) m data) (l1 ++ m :: l2) σ =
  (inl e, mkState (updated (l1 ++ [m]) (outs1 ++ [o']) (heap σ))
                  (calls σ ++ map (fun m => CallForward m data) (l1 ++ [m]))).
Proof.
  intros Hnd H2 Ho Hleaf.
  apply NoDup_app in Hnd as (Hnd1 & Hm & _).
  assert (Hm1 : m ∉ l1) by (intros Hin; apply (Hm m Hin); left).
  assert (Hlen : length l1 = length outs1)
    by (apply Forall2_length in H2; rewrite length_map in H2; exact H2).
  rewrite for_each_app, (forward_leaves_return _ _ _ _ _ Hnd1 H2).
  simpl. unfold bind.
  erewrite call_forward_leaf; [| |exact Hleaf].
  - simpl. rewrite updated_snoc by assumption.
    rewrite map_app, <- app_assoc. reflexivity.
  - simpl. rewrite updated_lookup_notin by exact Hm1. exact Ho.
Qed.

(** The loop of [MetricChain.close] over children that all return. *)
Lemma close_leaves_return depth (ml : list ref) (outs : list (dict * object X)) :
  forall σ res,
    NoDup ml ->
    Forall2 (fun m out => exists o, heap σ !! m = Some o /\ leaf_close o = Some out)
      ml (map (fun out => (inr (fst out), snd out)) outs) ->
    for_fold (fun res m => let* d := call_close (S depth) m in ret (dict_update res d))
      ml res σ =
    (inr (fold_left dict_update (map fst outs) res),
     mkState (updated ml (map snd outs) (heap σ)) (calls σ ++ map CallClose ml)).
Proof.
  revert outs. induction ml as [|m ml IH]; intros outs σ res Hnd H2.
  - apply Forall2_nil_inv_l in H2. destruct outs; [|discriminate].
    simpl. rewrite updated_nil, app_nil_r. destruct σ; reflexivity.
  - destruct outs as [|[d o'] outs]; [inversion H2|]. simpl in H2.
    apply Forall2_cons_1 in H2 as [(o & Ho & Hleaf) H2].
    apply NoDup_cons in Hnd as [Hm Hnd].
    simpl. unfold bind at 1. unfold bind at 1.
    rewrite (call_close_leaf _ _ _ _ _ _ Ho Hleaf). unfold ret at 1.
    rewrite (IH outs); [|exact Hnd|].
    + simpl. rewrite updated_cons by exact Hm. rewrite <- app_assoc. reflexivity.
    + simpl. apply children_insert_ne; assumption.
Qed.

(** The loop of [MetricChain.close] makes the calls of [close_all] and
    returns their mappings merged, or raises what the first raising call
    raises, in the state that call left. *)
Lemma for_fold_close_all (call : ref -> M X dict) (l : list ref) :
  forall (res : dict) σ,
    for_fold (fun res m => let* d := call m in ret (dict_update res d)) l res σ =
    (let* ds := close_all call l in ret (fold_left dict_update ds res)) σ.
Proof.
  induction l as [|m l IH]; intros res σ.
  - reflexivity.
  - simpl. unfold bind at 1 2 4 5.
    destruct (call m σ) as [[e|d] σ1]; [reflexivity|].
    unfold ret at 1. rewrite IH. unfold bind.
    destruct (close_all call l σ1) as [[e|ds] σ2]; reflexivity.
Qed.

Lemma merge_results_snoc (ds : list dict) (d : dict) :
  merge_results (ds ++ [d]) = dict_update (merge_results ds) d.
Proof. unfold merge_results. rewrite fold_left_app. reflexivity. Qed.

(** A key of the mapping merged last has the value of that mapping; any
    other key has the value merged before. *)
Lemma merge_results_last_wins (ds : list dict) (d : dict) (k : string) :
  merge_results (ds ++ [d]) !! k =
  match d !! k with Some v => Some v | None => merge_results ds !! k end.
Proof.
  rewrite merge_results_snoc. unfold dict_update.
  destruct (d !! k) as [v|] eqn:Hk.
  - apply lookup_union_Some_l. exact Hk.
  - apply lookup_union_r. exact Hk.
Qed.

(** *** The chain *)

Lemma chain_close_open depth c self ml σ :
  heap σ !! c = Some (Chain self ml) -> MetricBase.closed self = false ->
  call_close (S depth) c σ =
  for_fold (fun res m => let* d := call_close depth m in ret (dict_update res d))
    ml ∅
    (mkState (<[c := Chain (MetricBase.mk (MetricBase.unordered_hash self) true) ml]>
                (heap σ))
             (calls σ ++ [CallClose c])).
Proof.
  intros Hc Hopen. rewrite (call_close_Chain _ _ _ _ _ Hc).
  unfold MetricChain.close, MetricBase.close. rewrite Hopen. reflexivity.
Qed.

(** [close] on an open chain whose children are distinct objects that are
    not chains and whose [close] returns. *)
Lemma chain_close_leaves depth c self ml σ (outs : list (dict * object X)) :
  heap σ !! c = Some (Chain self ml) -> MetricBase.closed self = false ->
  NoDup ml ->
  Forall2 (fun m out => exists o, heap σ !! m = Some o /\ leaf_close o = Some out)
    ml (map (fun out => (inr (fst out), snd out)) outs) ->
  call_close (S (S depth)) c σ =
  (inr (merge_results (map fst outs)),
   mkState
     (updated ml (map snd outs)
        (<[c := Chain (MetricBase.mk (MetricBase.unordered_hash self) true) ml]>
           (heap σ)))
     (calls σ ++ CallClose c :: map CallClose ml)).
Proof.
  intros Hc Hopen Hnd H2. rewrite (chain_close_open _ _ _ _ _ Hc Hopen).
  assert (Hcm : c ∉ ml)
    by (eapply (children_not_chain leaf_close); [exact Hc | reflexivity | exact H2]).
  rewrite (close_leaves_return depth ml outs (mkState _ _) ∅ Hnd
             (children_insert_ne leaf_close c _ _ _ _ Hcm H2)).
  unfold merge_results. simpl. rewrite <- app_assoc. reflexivity.
Qed.

Lemma add_metric_Chain c metric σ self ml :
  heap σ !! c = Some (Chain self ml) ->
  MetricChain.add_metric c metric σ =
  match MetricChain.is_metric σ metric with
  | None => (inl (TypeError "Metric must be a subclass of MetricBase"), σ)
  | Some m => (inr tt, mkState (<[c := Chain self (ml ++ [m])]> (heap σ)) (calls σ))
  end.
Proof.
  intros Hc. unfold MetricChain.add_metric, bind, lookup_object. rewrite Hc.
  destruct (MetricChain.is_metric σ metric); reflexivity.
Qed.

Lemma is_metric_obj σ m o :
  heap σ !! m = Some o -> MetricChain.is_metric σ (PyObj m) = Some m.
Proof. intros Hm. simpl. rewrite Hm. reflexivity. Qed.

(** Registering the objects [ms] one after the other. *)
Lemma add_metric_all c (ms : list ref) :
  forall σ self ml,
    heap σ !! c = Some (Chain self ml) ->
    Forall (fun m => is_Some (heap σ !! m)) ms ->
    for_each (fun m => MetricChain.add_metric c (PyObj m)) ms σ =
    (inr tt, mkState (<[c := Chain self (ml ++ ms)]> (heap σ)) (calls σ)).
Proof.
  induction ms as [|m ms IH]; intros σ self ml Hc Hms.
  - simpl. rewrite app_nil_r, (insert_id _ _ _ Hc). destruct σ; reflexivity.
  - apply Forall_cons in Hms as [[o Hm] Hms].
    simpl. unfold bind. rewrite (add_metric_Chain _ _ _ _ _ Hc).
    rewrite (is_metric_obj _ _ _ Hm).
    rewrite (IH _ self (ml ++ [m])).
    + simpl. rewrite insert_insert_eq, <- app_assoc. reflexivity.
    + simpl. apply lookup_insert_eq.
    + simpl. eapply Forall_impl; [exact Hms|]. intros m' [o' Hm'].
      destruct (decide (c = m')) as [<-|Hne].
      * rewrite lookup_insert_eq. eauto.
      * rewrite lookup_insert_ne by done. eauto.
Qed.

Lemma children_in_heap {A} (step : object X -> option (A * object X)) h
    (ms : list ref) (outs : list (A * object X)) :
  Forall2 (fun m out => exists o, h !! m = Some o /\ step o = Some out) ms outs ->
  Forall (fun m => is_Some (h !! m)) ms.
Proof.
  induction 1 as [|m out ms outs (o & Ho & _) _ IH]; constructor; eauto.
Qed.

(** C4, as amended: [forward] on a chain.  A closed chain raises
    [ValueError] and an open chain given a value that is not a [dict]
    raises [TypeError], in both cases with no call on a child and no change
    of the store.  Otherwise the loop calls [forward] on the children in
    the order of [metric_list], one call for each registration and each
    with the [data] of the chain's call, until a call raises.  When the
    children are distinct objects that are not chains and all return, each
    is called once, in that order, and each is left as its own [forward]
    leaves it.  When the children before [m] return and [m] raises, the
    exception is the outcome of the chain's call: the children before [m]
    keep the state their [forward] left, [m] is as its raising call left
    it, and no child after [m] is called. *)
Theorem chain_forward_fan_out depth c self ml data σ :
  heap σ !! c = Some (Chain self ml) ->
  (MetricBase.closed self = true ->
   call_forward (S depth) c data σ =
   (inl (ValueError MetricBase.closed_msg), logged (CallForward c data) σ)) /\
  (MetricBase.closed self = false -> is_dict data = false ->
   call_forward (S depth) c data σ =
   (inl (TypeError "Data must be a dict."), logged (CallForward c data) σ)) /\
  (MetricBase.closed self = false -> is_dict data = true ->
   call_forward (S depth) c data σ =
   for_each (fun m => call_forward depth m data) ml (logged (CallForward c data) σ)) /\
  (MetricBase.closed self = false -> is_dict data = true ->
   forall outs : list (object X),
     NoDup ml ->
     Forall2 (fun m out => exists o, heap σ !! m = Some o /\
                                     leaf_forward o data = Some out)
       ml (map (fun o' => (inr tt, o')) outs) ->
     call_forward (S (S depth)) c data σ =
     (inr tt,
      mkState (updated ml outs (heap σ))
              (calls σ ++ CallForward c data :: map (fun m => CallForward m data) ml))) /\
  (MetricBase.closed self = false -> is_dict data = true ->
   forall (l1 l2 : list ref) (outs1 : list (object X)) m o e o',
     ml = l1 ++ m :: l2 ->
     NoDup (l1 ++ [m]) ->
     Forall2 (fun m out => exists o, heap σ !! m = Some o /\
                                     leaf_forward o data = Some out)
       l1 (map (fun o' => (inr tt, o')) outs1) ->
     heap σ !! m = Some o -> leaf_forward o data = Some (inl e, o') ->
     call_forward (S (S depth)) c data σ =
     (inl e,
      mkState (updated (l1 ++ [m]) (outs1 ++ [o']) (heap σ))
              (calls σ ++ CallForward c data
                       :: map (fun m => CallForward m data) (l1 ++ [m])))).
Proof.
  intros Hc.
  assert (Hopen : forall depth, MetricBase.closed self = false -> is_dict data = true ->
            call_forward (S depth) c data σ =
            for_each (fun m => call_forward depth m data) ml
              (logged (CallForward c data) σ)).
  { intros depth0 Hcl Hd. rewrite (call_forward_Chain _ _ _ _ _ _ Hc).
    unfold MetricChain.forward, bind, lift, MetricBase.forward.
    rewrite Hcl, Hd. reflexivity. }
  repeat split.
  - intros Hcl. apply (closed_forward_raises depth c data σ _ Hc); auto.
  - intros Hcl Hd. rewrite (call_forward_Chain _ _ _ _ _ _ Hc).
    unfold MetricChain.forward, bind, lift, MetricBase.forward.
    rewrite Hcl, Hd. reflexivity.
  - apply Hopen.
  - intros Hcl Hd outs Hnd H2. rewrite (Hopen _ Hcl Hd).
    rewrite (forward_leaves_return depth data ml outs (logged (CallForward c data) σ) Hnd H2).
    simpl. rewrite <- app_assoc. reflexivity.
  - intros Hcl Hd l1 l2 outs1 m o e o' -> Hnd H2 Ho Hleaf. rewrite (Hopen _ Hcl Hd).
    rewrite (forward_leaves_raise depth data l1 l2 outs1 m o e o'
             (logged (CallForward c data) σ) Hnd H2 Ho Hleaf).
    simpl. rewrite <- app_assoc. reflexivity.
Qed.

(** C3, as amended: [close] on an open chain.  The chain is closed in the
    state the call leaves, whatever its children do.  After closing itself
    the chain calls [close] on its children in the order of [metric_list],
    one call for each registration, and returns the mappings they return,
    merged in that order; a child that raises ends the call with its
    exception.  When the children are distinct
    objects that are not chains and their [close] returns, each is called
    once, in the order of [metric_list] and after the call on the chain,
    each is left as its own [close] leaves it, and the chain returns the
    mappings of the children merged in that order: a key of a later child
    replaces the same key of an earlier one.  Merging {"a": 1} and then
    {"a": 2, "b": 3} gives {"a": 2, "b": 3}. *)
Theorem chain_close_merges depth c self ml σ :
  heap σ !! c = Some (Chain self ml) -> MetricBase.closed self = false ->
  (exists self' ml',
      heap (snd (call_close (S depth) c σ)) !! c = Some (Chain self' ml') /\
      MetricBase.closed self' = true) /\
  call_close (S depth) c σ =
  (let* ds := close_all (call_close depth) ml in ret (merge_results ds))
    (mkState
       (<[c := Chain (MetricBase.mk (MetricBase.unordered_hash self) true) ml]> (heap σ))
       (calls σ ++ [CallClose c])) /\
  (forall outs : list (dict * object X),
      NoDup ml ->
      Forall2 (fun m out => exists o, heap σ !! m = Some o /\ leaf_close o = Some out)
        ml (map (fun out => (inr (fst out), snd out)) outs) ->
      call_close (S (S depth)) c σ =
      (inr (merge_results (map fst outs)),
       mkState
         (updated ml (map snd outs)
            (<[c := Chain (MetricBase.mk (MetricBase.unordered_hash self) true) ml]>
               (heap σ)))
         (calls σ ++ CallClose c :: map CallClose ml))) /\
  (forall (ds : list dict) (d : dict) (k : string),
      merge_results (ds ++ [d]) !! k =
      match d !! k with Some v => Some v | None => merge_results ds !! k end) /\
  merge_results [ {["a" := PyInt 1]}; {["a" := PyInt 2; "b" := PyInt 3]} ]
  = ({["a" := PyInt 2; "b" := PyInt 3]} : dict).
Proof.
  intros Hc Hopen.
  split; [|split; [|split; [|split]]].
  2: { rewrite (chain_close_open _ _ _ _ _ Hc Hopen). apply for_fold_close_all. }
  - rewrite (chain_close_open _ _ _ _ _ Hc Hopen).
    match goal with
    | |- context [for_fold ?f ?l ?a ?s] =>
        pose proof (preserves_for_fold f l
          (fun res m => preserves_bind _ _ (call_close_preserves depth m)
                          (fun _ => preserves_ret _)) a s) as Hle
    end.
    destruct (heap_le_lookup _ _ c _ Hle (lookup_insert_eq _ _ _)) as (o' & Ho' & Hoo).
    destruct o' as [|self' ml'|]; simpl in Hoo; try tauto.
    exists self', ml'. split; [exact Ho'|]. apply Hoo. reflexivity.
  - intros outs Hnd H2. apply chain_close_leaves; assumption.
  - apply merge_results_last_wins.
  - vm_compute. reflexivity.
Qed.

(** C8: [add_metric] raises [TypeError] on a value that is not an instance
    of [MetricBase] and leaves the chain as it was; on an instance it puts
    the object at the end of [metric_list], so that objects registered one
    after the other stand in the list in the order of their registration;
    and [close] calls and merges the children in the order of that list. *)
Theorem add_metric_registers c self ml σ :
  heap σ !! c = Some (Chain self ml) ->
  (forall metric,
      MetricChain.is_metric σ metric = None ->
      MetricChain.add_metric c metric σ =
      (inl (TypeError "Metric must be a subclass of MetricBase"), σ)) /\
  (forall metric m,
      MetricChain.is_metric σ metric = Some m ->
      MetricChain.add_metric c metric σ =
      (inr tt, mkState (<[c := Chain self (ml ++ [m])]> (heap σ)) (calls σ))) /\
  (forall ms : list ref,
      Forall (fun m => is_Some (heap σ !! m)) ms ->
      for_each (fun m => MetricChain.add_metric c (PyObj m)) ms σ =
      (inr tt, mkState (<[c := Chain self (ml ++ ms)]> (heap σ)) (calls σ))) /\
  (forall (ms : list ref) depth (outs : list (dict * object X)),
      MetricBase.closed self = false ->
      NoDup (ml ++ ms) ->
      Forall2 (fun m out => exists o, heap σ !! m = Some o /\ leaf_close o = Some out)
        (ml ++ ms) (map (fun out => (inr (fst out), snd out)) outs) ->
      call_close (S (S depth)) c
        (snd (for_each (fun m => MetricChain.add_metric c (PyObj m)) ms σ)) =
      (inr (merge_results (map fst outs)),
       mkState
         (updated (ml ++ ms) (map snd outs)
            (<[c := Chain (MetricBase.mk (MetricBase.unordered_hash self) true)
                      (ml ++ ms)]> (heap σ)))
         (calls σ ++ CallClose c :: map CallClose (ml ++ ms)))).
Proof.
  intros Hc. repeat split.
  - intros metric Hm. rewrite (add_metric_Chain _ _ _ _ _ Hc), Hm. reflexivity.
  - intros metric m Hm. rewrite (add_metric_Chain _ _ _ _ _ Hc), Hm. reflexivity.
  - intros ms Hms. apply add_metric_all; assumption.
  - intros ms depth outs Hopen Hnd H2.
    assert (Hms : Forall (fun m => is_Some (heap σ !! m)) ms).
    { apply children_in_heap in H2. apply Forall_app in H2 as [_ H2]. exact H2. }
    assert (Hcm : c ∉ ml ++ ms)
      by (eapply (children_not_chain leaf_close); [exact Hc | reflexivity | exact H2]).
    rewrite (add_metric_all c ms σ self ml Hc Hms). cbn [snd].
    erewrite chain_close_leaves;
      [ | apply lookup_insert_eq | exact Hopen | exact Hnd
        | apply children_insert_ne; [exact Hcm | exact H2] ].
    cbn [heap calls]. rewrite insert_insert_eq. reflexivity.
Qed.

(** A closed chain under calls on the chain itself. *)
Lemma closed_chain_call depth c (cl : call X) σ self ml :
  heap σ !! c = Some (Chain self ml) -> MetricBase.closed self = true ->
  call_target cl = Some c ->
  (exists ml', heap (run_call depth cl σ) !! c = Some (Chain self ml')) /\
  (forall r, r <> c -> heap (run_call depth cl σ) !! r = heap σ !! r) /\
  (exists evs, calls (run_call depth cl σ) = calls σ ++ evs /\
               Forall (fun e => callee e = c) evs).
Proof.
  intros Hc Hcl Ht. destruct cl as [| | |r data|r|r metric]; try discriminate;
    injection Ht as ->; simpl.
  - destruct depth as [|depth].
    + simpl. split; [eauto|]. split; [auto|]. exists []. rewrite app_nil_r. auto.
    + rewrite (closed_forward_raises depth c data σ _ Hc eq_refl Hcl). simpl.
      split; [eauto|]. split; [auto|]. exists [CallForward c data].
      split; [reflexivity|]. repeat constructor.
  - destruct depth as [|depth].
    + simpl. split; [eauto|]. split; [auto|]. exists []. rewrite app_nil_r. auto.
    + rewrite (closed_close_raises depth c σ _ Hc eq_refl Hcl). simpl.
      split; [eauto|]. split; [auto|]. exists [CallClose c].
      split; [reflexivity|]. repeat constructor.
  - rewrite (add_metric_Chain _ _ _ _ _ Hc).
    destruct (MetricChain.is_metric σ metric) as [m|]; simpl.
    + split; [rewrite lookup_insert_eq; eauto|].
      split; [intros r Hr; rewrite lookup_insert_ne by done; reflexivity|].
      exists []. rewrite app_nil_r. auto.
    + split; [eauto|]. split; [auto|]. exists []. rewrite app_nil_r. auto.
Qed.

Lemma closed_chain_calls depth c (cs : list (call X)) :
  forall σ self ml,
    heap σ !! c = Some (Chain self ml) -> MetricBase.closed self = true ->
    Forall (fun cl => call_target cl = Some c) cs ->
    (exists ml', heap (run_calls depth cs σ) !! c = Some (Chain self ml')) /\
    (forall r, r <> c -> heap (run_calls depth cs σ) !! r = heap σ !! r) /\
    (exists evs, calls (run_calls depth cs σ) = calls σ ++ evs /\
                 Forall (fun e => callee e = c) evs).
Proof.
  induction cs as [|cl cs IH]; intros σ self ml Hc Hcl Hcs.
  - simpl. split; [eauto|]. split; [auto|]. exists []. rewrite app_nil_r. auto.
  - apply Forall_cons in Hcs as [Ht Hcs].
    destruct (closed_chain_call depth c cl σ self ml Hc Hcl Ht)
      as ([ml1 Hc1] & Hframe1 & evs1 & Hev1 & Hcal1).
    destruct (IH _ self ml1 Hc1 Hcl Hcs) as (Hc2 & Hframe2 & evs2 & Hev2 & Hcal2).
    simpl. split; [exact Hc2|]. split.
    + intros r Hr. rewrite (Hframe2 r Hr). apply Hframe1, Hr.
    + exists (evs1 ++ evs2). split.
      * rewrite Hev2, Hev1, app_assoc. reflexivity.
      * apply Forall_app. auto.
Qed.

(** C9: [add_metric] checks no closed flag: on a closed chain it registers
    an instance of [MetricBase] as on an open one.  Whatever calls of
    [forward], [close] and [add_metric] are then made on the chain, the
    [close] of the chain raises, every call entered is a call on the chain
    itself, and every other object of the store, the registered child
    among them, is as it was: the chain never calls the child's [close]. *)
Theorem add_metric_after_close c self ml m o σ :
  heap σ !! c = Some (Chain self ml) -> MetricBase.closed self = true ->
  heap σ !! m = Some o ->
  let σ1 := mkState (<[c := Chain self (ml ++ [m])]> (heap σ)) (calls σ) in
  MetricChain.add_metric c (PyObj m) σ = (inr tt, σ1) /\
  forall depth (cs : list (call X)),
    Forall (fun cl => call_target cl = Some c) cs ->
    let σ' := run_calls depth cs σ1 in
    fst (call_close (S depth) c σ') = inl (RuntimeError MetricBase.closed_msg) /\
    (forall r, r <> c -> heap σ' !! r = heap σ !! r) /\
    (exists evs, calls σ' = calls σ ++ evs /\ Forall (fun e => callee e = c) evs) /\
    (m <> c -> heap σ' !! m = Some o /\ CallClose m ∉ drop (length (calls σ)) (calls σ')).
Proof.
  intros Hc Hcl Hm σ1. split.
  - rewrite (add_metric_Chain _ _ _ _ _ Hc), (is_metric_obj _ _ _ Hm). reflexivity.
  - intros depth cs Hcs σ'.
    assert (Hc1 : heap σ1 !! c = Some (Chain self (ml ++ [m])))
      by apply lookup_insert_eq.
    destruct (closed_chain_calls depth c cs σ1 self _ Hc1 Hcl Hcs)
      as ([ml' Hc'] & Hframe & evs & Hev & Hcal).
    fold σ' in Hc', Hframe, Hev.
    assert (Hframe' : forall r, r <> c -> heap σ' !! r = heap σ !! r).
    { intros r Hr. rewrite (Hframe r Hr). simpl. apply lookup_insert_ne. congruence. }
    split; [|split; [exact Hframe'|split; [exists evs; auto|]]].
    + rewrite (closed_close_raises depth c σ' _ Hc' eq_refl Hcl). reflexivity.
    + intros Hne. split; [rewrite (Hframe' m Hne); exact Hm|].
      rewrite Hev. simpl. rewrite drop_app_length. intros Hin.
      rewrite Forall_forall in Hcal. apply Hcal in Hin. simpl in Hin. congruence.
Qed.

Lemma obj_le_chain_hash o o' self ml :
  obj_le o o' -> o = Chain self ml ->
  exists self' ml', o' = Chain self' ml' /\
    MetricBase.unordered_hash self' = MetricBase.unordered_hash self.
Proof.
  intros Hle ->. destruct o' as [|self' ml'|]; simpl in Hle; try tauto.
  exists self', ml'. split; [reflexivity | apply Hle].
Qed.

(** C10: no call of [forward], [close] or [add_metric], on the chain or
    on any other object, and no construction of an object, changes the
    accumulator of a chain; the digest of a chain built by [MetricChain()]
    is therefore, after any such calls, the digest of an accumulator that
    has seen no record. *)
Theorem chain_fingerprint_untouched depth (cs : list (call X)) σ :
  (forall c self ml,
      heap σ !! c = Some (Chain self ml) ->
      exists self' ml',
        heap (run_calls depth cs σ) !! c = Some (Chain self' ml') /\
        MetricBase.unordered_hash self' = MetricBase.unordered_hash self /\
        MetricBase._hashvalue self' = MetricBase._hashvalue self) /\
  (exists c σ1,
      new_MetricChain σ = (inr c, σ1) /\
      exists self' ml',
        heap (run_calls depth cs σ1) !! c = Some (Chain self' ml') /\
        MetricBase._hashvalue self' =
        MetricBase._hashvalue
          (MetricBase._hash_relevant_data MetricBase.init ([] : list string)) /\
        MetricBase._hashvalue self' = replicate 32 0).
Proof.
  assert (Hgen : forall σ c self ml,
      heap σ !! c = Some (Chain self ml) ->
      exists self' ml',
        heap (run_calls depth cs σ) !! c = Some (Chain self' ml') /\
        MetricBase.unordered_hash self' = MetricBase.unordered_hash self /\
        MetricBase._hashvalue self' = MetricBase._hashvalue self).
  { intros σ0 c self ml Hc.
    destruct (run_calls_preserves depth cs σ0 c _ Hc) as (o' & Ho' & Hle).
    destruct (obj_le_chain_hash _ _ _ _ Hle eq_refl) as (self' & ml' & -> & Hh).
    exists self', ml'. split; [exact Ho'|]. split; [exact Hh|].
    unfold MetricBase._hashvalue. rewrite Hh. reflexivity. }
  split; [apply Hgen|].
  eexists _, _. split; [reflexivity|].
  destruct (Hgen (mkState (<[fresh (dom (heap σ)) := Chain MetricBase.init []]> (heap σ))
                    (calls σ))
              (fresh (dom (heap σ))) MetricBase.init [] (lookup_insert_eq _ _ _))
    as (self' & ml' & Hc' & _ & Hh).
  exists self', ml'. split; [exact Hc'|]. rewrite Hh. split; reflexivity.
Qed.

End Calls.

(** ** The theorems on the sample stores *)

(** An object registered twice is one object: the second [close] on it
    raises, and so does the [close] of the chain, which stays closed. *)
Example chain_close_child_twice :
  fst (call_close 2 0%nat sample_store_twice)
    = inl (RuntimeError MetricBase.closed_msg) /\
  calls (snd (call_close 2 0%nat sample_store_twice))
    = [CallClose 0%nat; CallClose 1%nat; CallClose 1%nat] /\
  heap (snd (call_close 2 0%nat sample_store_twice)) !! 0%nat
    = Some (Chain (MetricBase.mk UnorderedSha256.init true) [1; 1]%nat).
Proof. vm_compute. auto. Qed.

(** C3, as stated, fails: on an open chain in which one open recorder is
    registered twice, [close] is called on the recorder twice, and the
    chain raises what the second call raises instead of returning the union
    of the mappings. *)
Lemma chain_close_not_once_per_child :
  heap sample_store_twice !! 0%nat = Some (Chain MetricBase.init [1; 1]%nat) /\
  MetricBase.closed MetricBase.init = false /\
  heap sample_store_twice !! 1%nat = Some E1 /\
  fst (call_close 2 0%nat sample_store_twice)
    = inl (RuntimeError MetricBase.closed_msg) /\
  calls (snd (call_close 2 0%nat sample_store_twice))
    = [CallClose 0%nat; CallClose 1%nat; CallClose 1%nat].
Proof. vm_compute. auto 10. Qed.

(** C4, as stated, fails: on the same open chain one [forward] with a
    [dict] returns after two calls of [forward] on the recorder, which has
    then seen the batch twice. *)
Lemma chain_forward_not_once_per_child :
  heap sample_store_twice !! 0%nat = Some (Chain MetricBase.init [1; 1]%nat) /\
  MetricBase.closed MetricBase.init = false /\
  is_dict sample_batch = true /\
  heap sample_store_twice !! 1%nat = Some E1 /\
  fst (call_forward 2 0%nat sample_batch sample_store_twice) = inr tt /\
  calls (snd (call_forward 2 0%nat sample_batch sample_store_twice))
    = [CallForward 0%nat sample_batch; CallForward 1%nat sample_batch;
       CallForward 1%nat sample_batch] /\
  heap (snd (call_forward 2 0%nat sample_batch sample_store_twice)) !! 1%nat
    = Some (seen_by E1 [sample_batch; sample_batch]).
Proof. vm_compute. auto 10. Qed.

(** Distinct open children do not suffice when one of them is a chain: the
    recorder at 1 is a child of the chain at 0 and of its child, the chain
    at 3.  [close] on the chain at 0 closes the recorder through the chain
    at 3, and raises when it closes it again; one [forward] reaches it
    twice. *)
Example chain_close_shared_child :
  fst (call_close 3 0%nat sample_store_shared)
    = inl (RuntimeError MetricBase.closed_msg) /\
  calls (snd (call_close 3 0%nat sample_store_shared))
    = [CallClose 0%nat; CallClose 3%nat; CallClose 1%nat; CallClose 1%nat].
Proof. vm_compute. auto. Qed.

Example chain_forward_shared_child :
  fst (call_forward 3 0%nat sample_batch sample_store_shared) = inr tt /\
  heap (snd (call_forward 3 0%nat sample_batch sample_store_shared)) !! 1%nat
    = Some (seen_by E1 [sample_batch; sample_batch]).
Proof. vm_compute. auto. Qed.

(** On the chain with the recorder registered twice [forward] reaches the
    recorder once per registration. *)
Example chain_forward_child_twice :
  fst (call_forward 2 0%nat sample_batch sample_store_twice) = inr tt /\
  heap (snd (call_forward 2 0%nat sample_batch sample_store_twice)) !! 1%nat
    = Some (seen_by E1 [sample_batch; sample_batch]).
Proof. vm_compute. auto. Qed.

Lemma closed_metric_rejects_calls_witness :
  heap sample_store !! 0%nat = Some (Chain MetricBase.init [1; 2]%nat) /\
  fst (call_close 2 0%nat sample_store)
    = inr ({["a" := PyInt 2; "b" := PyInt 3]} : dict) /\
  fst (call_forward 1 0%nat sample_batch (snd (call_close 2 0%nat sample_store)))
    = inl (ValueError MetricBase.closed_msg) /\
  fst (call_close 1 0%nat (snd (call_close 2 0%nat sample_store)))
    = inl (RuntimeError MetricBase.closed_msg).
Proof.
  assert (H0 : heap sample_store !! 0%nat = Some (Chain MetricBase.init [1; 2]%nat))
    by (vm_compute; reflexivity).
  assert (Hclose : call_close 2 0%nat sample_store =
                   (inr ({["a" := PyInt 2; "b" := PyInt 3]} : dict),
                    snd (call_close 2 0%nat sample_store)))
    by (vm_compute; reflexivity).
  split; [exact H0|]. split; [rewrite Hclose; reflexivity|].
  pose proof (closed_metric_rejects_calls 2 0%nat sample_store _ _ _ H0 eq_refl Hclose
                0%nat [] 0%nat sample_batch) as Hthm.
  cbv zeta in Hthm. change (run_calls 0 [] ?s) with s in Hthm.
  split; [apply Hthm | apply Hthm].
Defined.

Lemma forward_non_dict_raises_witness :
  heap sample_store !! 0%nat = Some (Chain MetricBase.init [1; 2]%nat) /\
  is_dict (PyList [PyInt 1]) = false /\
  fst (call_forward 1 0%nat (PyList [PyInt 1]) sample_store)
    = inl (TypeError "Data must be a dict.") /\
  heap (snd (call_forward 1 0%nat (PyList [PyInt 1]) sample_store)) = heap sample_store.
Proof.
  assert (H0 : heap sample_store !! 0%nat = Some (Chain MetricBase.init [1; 2]%nat))
    by (vm_compute; reflexivity).
  split; [exact H0|]. split; [reflexivity|].
  pose proof (forward_non_dict_raises 0 0%nat (PyList [PyInt 1]) sample_store _
                H0 eq_refl eq_refl eq_refl) as (Hres & Hheap & _).
  split; [exact Hres | exact Hheap].
Defined.

Lemma chain_forward_fan_out_witness :
  heap sample_store !! 0%nat = Some (Chain MetricBase.init [1; 2]%nat) /\
  call_forward 2 0%nat sample_batch sample_store =
  (inr tt,
   mkState
     (updated [1; 2]%nat [seen_by E1 [sample_batch]; seen_by E2 [sample_batch]]
        (heap sample_store))
     [CallForward 0%nat sample_batch; CallForward 1%nat sample_batch;
      CallForward 2%nat sample_batch]) /\
  call_forward 2 0%nat sample_batch sample_store_closed_child =
  (inl (ValueError MetricBase.closed_msg),
   mkState
     (updated [1; 3]%nat [seen_by E1 [sample_batch]; E3_closed]
        (heap sample_store_closed_child))
     [CallForward 0%nat sample_batch; CallForward 1%nat sample_batch;
      CallForward 3%nat sample_batch]).
Proof.
  assert (H0 : heap sample_store !! 0%nat = Some (Chain MetricBase.init [1; 2]%nat))
    by (vm_compute; reflexivity).
  assert (H0' : heap sample_store_closed_child !! 0%nat
                = Some (Chain MetricBase.init [1; 3; 2]%nat))
    by (vm_compute; reflexivity).
  split; [exact H0|]. split.
  - destruct (chain_forward_fan_out 0 0%nat _ _ sample_batch sample_store H0)
      as (_ & _ & _ & Hret & _).
    apply (Hret eq_refl eq_refl [seen_by E1 [sample_batch]; seen_by E2 [sample_batch]]).
    + compute_done.
    + repeat constructor.
      * exists E1. split; vm_compute; reflexivity.
      * exists E2. split; vm_compute; reflexivity.
  - destruct (chain_forward_fan_out 0 0%nat _ _ sample_batch sample_store_closed_child H0')
      as (_ & _ & _ & _ & Hraise).
    apply (Hraise eq_refl eq_refl [1%nat] [2%nat] [seen_by E1 [sample_batch]]
             3%nat E3_closed (ValueError MetricBase.closed_msg) E3_closed eq_refl).
    + compute_done.
    + repeat constructor. exists E1. split; vm_compute; reflexivity.
    + vm_compute. reflexivity.
    + vm_compute. reflexivity.
Defined.

Lemma chain_close_merges_witness :
  heap sample_store !! 0%nat = Some (Chain MetricBase.init [1; 2]%nat) /\
  MetricBase.closed MetricBase.init = false /\
  call_close 2 0%nat sample_store =
  (inr ({["a" := PyInt 2; "b" := PyInt 3]} : dict),
   mkState
     (updated [1; 2]%nat [closed_of E1; closed_of E2]
        (<[0%nat := Chain (MetricBase.mk UnorderedSha256.init true) [1; 2]%nat]>
           (heap sample_store)))
     [CallClose 0%nat; CallClose 1%nat; CallClose 2%nat]).
Proof.
  assert (H0 : heap sample_store !! 0%nat = Some (Chain MetricBase.init [1; 2]%nat))
    by (vm_compute; reflexivity).
  split; [exact H0|]. split; [reflexivity|].
  destruct (chain_close_merges 0 0%nat _ _ sample_store H0 eq_refl)
    as (_ & _ & Hret & _ & Hmerge).
  rewrite (Hret [({["a" := PyInt 1]}, closed_of E1);
                 ({["a" := PyInt 2; "b" := PyInt 3]}, closed_of E2)]).
  - cbn [map fst snd]. rewrite Hmerge. reflexivity.
  - compute_done.
  - repeat constructor.
    + exists E1. split; vm_compute; reflexivity.
    + exists E2. split; vm_compute; reflexivity.
Defined.

Lemma add_metric_registers_witness :
  heap sample_store !! 0%nat = Some (Chain MetricBase.init [1; 2]%nat) /\
  MetricChain.add_metric 0%nat (PyStr "bleu") sample_store =
  (inl (TypeError "Metric must be a subclass of MetricBase"), sample_store) /\
  MetricChain.add_metric 0%nat (PyObj 2%nat) sample_store =
  (inr tt,
   mkState (<[0%nat := Chain MetricBase.init [1; 2; 2]%nat]> (heap sample_store)) []).
Proof.
  assert (H0 : heap sample_store !! 0%nat = Some (Chain MetricBase.init [1; 2]%nat))
    by (vm_compute; reflexivity).
  split; [exact H0|].
  destruct (add_metric_registers 0%nat _ _ sample_store H0) as (Hno & Hyes & _).
  split.
  - apply Hno. reflexivity.
  - apply (Hyes (PyObj 2%nat) 2%nat). vm_compute. reflexivity.
Defined.

Lemma add_metric_after_close_witness :
  heap sample_store_closed_chain !! 0%nat
    = Some (Chain (MetricBase.mk UnorderedSha256.init true) []) /\
  heap sample_store_closed_chain !! 1%nat = Some (Base MetricBase.init) /\
  MetricChain.add_metric 0%nat (PyObj 1%nat) sample_store_closed_chain =
  (inr tt,
   mkState
     (<[0%nat := Chain (MetricBase.mk UnorderedSha256.init true) [1%nat]]>
        (heap sample_store_closed_chain)) []) /\
  heap (run_calls 2 [DoClose 0%nat; DoForward 0%nat sample_batch]
          (snd (MetricChain.add_metric 0%nat (PyObj 1%nat) sample_store_closed_chain)))
    !! 1%nat = Some (Base MetricBase.init).
Proof.
  assert (H0 : heap sample_store_closed_chain !! 0%nat
               = Some (Chain (MetricBase.mk UnorderedSha256.init true) []))
    by (vm_compute; reflexivity).
  assert (H1 : heap sample_store_closed_chain !! 1%nat = Some (Base MetricBase.init))
    by (vm_compute; reflexivity).
  split; [exact H0|]. split; [exact H1|].
  destruct (add_metric_after_close 0%nat _ _ 1%nat _ sample_store_closed_chain
              H0 eq_refl H1) as (Hadd & Hafter).
  split; [exact Hadd|]. rewrite Hadd. cbn [snd].
  destruct (Hafter 2%nat [DoClose 0%nat; DoForward 0%nat sample_batch])
    as (_ & _ & _ & Hchild).
  - repeat constructor.
  - apply Hchild. discriminate.
Defined.

Lemma chain_fingerprint_untouched_witness :
  heap sample_store !! 0%nat = Some (Chain MetricBase.init [1; 2]%nat) /\
  exists self' ml',
    heap (run_calls 2 [DoForward 0%nat sample_batch; DoClose 0%nat] sample_store) !! 0%nat
      = Some (Chain self' ml') /\
    MetricBase._hashvalue self' = MetricBase._hashvalue MetricBase.init.
Proof.
  assert (H0 : heap sample_store !! 0%nat = Some (Chain MetricBase.init [1; 2]%nat))
    by (vm_compute; reflexivity).
  split; [exact H0|].
  destruct (chain_fingerprint_untouched 2
              [DoForward 0%nat sample_batch; DoClose 0%nat] sample_store) as [Hgen _].
  destruct (Hgen 0%nat _ _ H0) as (self' & ml' & Hc & _ & Hh).
  exists self', ml'. split; [exact Hc | exact Hh].
Defined.

(** * Further properties of the two classes *)

(** ** Relations kept by a computation *)

Section Keeps.
Context {X : Type} (R : state X -> state X -> Prop).
Hypothesis R_refl : forall σ, R σ σ.
Hypothesis R_trans : forall σ1 σ2 σ3, R σ1 σ2 -> R σ2 σ3 -> R σ1 σ3.

Lemma keeps_ret {A} (a : A) : keeps R (ret a).
Proof. intros σ. apply R_refl. Qed.

Lemma keeps_raise {A} (e : exn) : keeps R (raise (A := A) e).
Proof. intros σ. apply R_refl. Qed.

Lemma keeps_lift {A} (x : exn + A) : keeps R (lift x).
Proof. intros σ. apply R_refl. Qed.

Lemma keeps_bind {A B} (m : M X A) (k : A -> M X B) :
  keeps R m -> (forall a, keeps R (k a)) -> keeps R (bind m k).
Proof.
  intros Hm Hk σ. unfold bind. specialize (Hm σ).
  destruct (m σ) as [[e|a] σ']; simpl in *; [exact Hm|].
  eapply R_trans; [exact Hm | apply Hk].
Qed.

Lemma keeps_for_each {A} (f : A -> M X unit) (l : list A) :
  (forall x, keeps R (f x)) -> keeps R (for_each f l).
Proof.
  intros Hf. induction l as [|x l IH]; simpl.
  - apply keeps_ret.
  - apply keeps_bind; auto.
Qed.

Lemma keeps_for_fold {A B} (f : B -> A -> M X B) (l : list A) :
  (forall acc x, keeps R (f acc x)) -> forall acc, keeps R (for_fold f l acc).
Proof.
  intros Hf. induction l as [|x l IH]; intros acc; simpl.
  - apply keeps_ret.
  - apply keeps_bind; auto.
Qed.

End Keeps.

Section Further.
Context {X : Type} `{Subclass X}.
Implicit Types (σ : state X) (h : gmap ref (object X)) (o : object X).
Implicit Types (r c m : ref) (depth : nat) (data : pyval).

#[local] Arguments call_forward : simpl never.
#[local] Arguments call_close : simpl never.

Lemma enters_only_refl (P : event -> Prop) σ : enters_only P σ σ.
Proof. exists []. rewrite app_nil_r. auto. Qed.

Lemma enters_only_trans (P : event -> Prop) σ1 σ2 σ3 :
  enters_only P σ1 σ2 -> enters_only P σ2 σ3 -> enters_only P σ1 σ3.
Proof.
  intros (e1 & H1 & HP1) (e2 & H2 & HP2). exists (e1 ++ e2). split.
  - rewrite H2, H1, app_assoc. reflexivity.
  - apply Forall_app. auto.
Qed.

Lemma enters_only_logged (P : event -> Prop) e σ σ' :
  P e -> enters_only P (logged e σ) σ' -> enters_only P σ σ'.
Proof.
  intros He (evs & Hc & HP). exists (e :: evs). split.
  - rewrite Hc. simpl. rewrite <- app_assoc. reflexivity.
  - constructor; assumption.
Qed.

Lemma enters_only_store (P : event -> Prop) (hp : gmap ref (object X)) σ :
  enters_only P σ (mkState hp (calls σ)).
Proof. exists []. simpl. rewrite app_nil_r. auto. Qed.

(** X1: during [r.forward(data)], at any depth of nesting of chains and
    whatever object is registered where, every call entered is a call of
    [forward] with the argument [data] of the outer call: no [close] is
    called and no other batch is passed on. *)
Theorem forward_enters_forward_of_data depth r data σ :
  enters_only (is_forward_of data) σ (snd (call_forward depth r data σ)).
Proof.
  revert r σ. induction depth as [|depth IH]; intros r σ.
  - apply enters_only_refl.
  - apply (enters_only_logged _ (CallForward r data)); [eexists; reflexivity|].
    destruct (heap σ !! r) as [[self|self ml|self attrs]|] eqn:Hr.
    + rewrite (call_forward_Base _ _ _ _ _ Hr). apply enters_only_refl.
    + rewrite (call_forward_Chain _ _ _ _ _ _ Hr).
      apply (keeps_bind _ (enters_only_trans _) _ _
               (keeps_lift _ (enters_only_refl _) _)
               (fun _ => keeps_for_each _ (enters_only_refl _) (enters_only_trans _)
                           _ _ (fun m => IH m))).
    + rewrite (call_forward_Sub _ _ _ _ _ _ Hr). apply enters_only_store.
    + rewrite (call_forward_dangling _ _ _ _ Hr). apply enters_only_refl.
Qed.

(** X2: during [r.close()], at any depth of nesting, every call entered is
    a call of [close]: closing never forwards a batch. *)
Theorem close_enters_close depth r σ :
  enters_only is_close σ (snd (call_close depth r σ)).
Proof.
  revert r σ. induction depth as [|depth IH]; intros r σ.
  - apply enters_only_refl.
  - apply (enters_only_logged _ (CallClose r)); [eexists; reflexivity|].
    destruct (heap σ !! r) as [[self|self ml|self attrs]|] eqn:Hr.
    + rewrite (call_close_Base _ _ _ _ Hr).
      destruct (MetricBase.close self) as [[e|res] self'].
      * apply enters_only_refl.
      * apply enters_only_store.
    + rewrite (call_close_Chain _ _ _ _ _ Hr). unfold MetricChain.close.
      destruct (MetricBase.close self) as [[e|res] self'].
      * apply enters_only_refl.
      * unfold bind at 1, store. cbn [fst snd].
        match goal with
        | |- enters_only _ _ (snd (for_fold ?f ?l ?a ?s)) =>
            apply (enters_only_trans _ _ s);
              [ apply (enters_only_store _ _ (logged (CallClose r) σ))
              | apply (keeps_for_fold _ (enters_only_refl _) (enters_only_trans _) f l
                         (fun res m => keeps_bind _ (enters_only_trans _) _ _ (IH m)
                                         (fun _ => keeps_ret _ (enters_only_refl _) _))) ]
        end.
    + rewrite (call_close_Sub _ _ _ _ _ Hr). apply enters_only_store.
    + rewrite (call_close_dangling _ _ _ Hr). apply enters_only_refl.
Qed.

Lemma same_source_objects_refl σ : same_source_objects σ σ.
Proof. intros r o Hr _. exact Hr. Qed.

Lemma same_source_objects_trans σ1 σ2 σ3 :
  same_source_objects σ1 σ2 -> same_source_objects σ2 σ3 -> same_source_objects σ1 σ3.
Proof. intros H12 H23 r o Hr Hsrc. apply H23; [apply H12|]; assumption. Qed.

Lemma same_source_objects_logged e σ σ' :
  same_source_objects (logged e σ) σ' -> same_source_objects σ σ'.
Proof. intros Hs r o Hr Hsrc. apply Hs; assumption. Qed.

Lemma same_source_objects_sub r self attrs o' σ (cs : list event) :
  heap σ !! r = Some (Sub self attrs) ->
  same_source_objects σ (mkState (<[r := o']> (heap σ)) cs).
Proof.
  intros Hr r' o Hr' Hsrc. simpl. rewrite lookup_insert_ne; [exact Hr'|].
  intros <-. rewrite Hr in Hr'. injection Hr' as <-. discriminate.
Qed.

Lemma forward_keeps_source_objects_aux depth r data σ :
  same_source_objects σ (snd (call_forward depth r data σ)).
Proof.
  revert r σ. induction depth as [|depth IH]; intros r σ.
  - apply same_source_objects_refl.
  - apply (same_source_objects_logged (CallForward r data)).
    destruct (heap σ !! r) as [[self|self ml|self attrs]|] eqn:Hr.
    + rewrite (call_forward_Base _ _ _ _ _ Hr). apply same_source_objects_refl.
    + rewrite (call_forward_Chain _ _ _ _ _ _ Hr).
      apply (keeps_bind _ same_source_objects_trans _ _
               (keeps_lift _ same_source_objects_refl _)
               (fun _ => keeps_for_each _ same_source_objects_refl
                           same_source_objects_trans _ _ (fun m => IH m))).
    + rewrite (call_forward_Sub _ _ _ _ _ _ Hr).
      apply (same_source_objects_sub r self attrs _ (logged (CallForward r data) σ)).
      exact Hr.
    + rewrite (call_forward_dangling _ _ _ _ Hr). apply same_source_objects_refl.
Qed.

(** X3: [forward], on any object and at any depth of nesting, leaves every
    instance of [MetricBase] and of [MetricChain] in the store exactly as it
    was: it closes nothing, registers nothing and feeds no accumulator of
    these classes; only objects of subclasses change. *)
Theorem forward_keeps_source_objects depth r data σ r' o :
  heap σ !! r' = Some o -> source_class o = true ->
  heap (snd (call_forward depth r data σ)) !! r' = Some o.
Proof. apply forward_keeps_source_objects_aux. Qed.

Lemma same_metric_lists_refl σ : same_metric_lists σ σ.
Proof. intros r self ml Hr. eauto. Qed.

Lemma same_metric_lists_trans σ1 σ2 σ3 :
  same_metric_lists σ1 σ2 -> same_metric_lists σ2 σ3 -> same_metric_lists σ1 σ3.
Proof.
  intros H12 H23 r self ml Hr.
  destruct (H12 r self ml Hr) as [self' Hr']. exact (H23 r self' ml Hr').
Qed.

Lemma same_metric_lists_store r o o' σ (cs : list event) :
  heap σ !! r = Some o ->
  (forall self ml, o = Chain self ml -> exists self', o' = Chain self' ml) ->
  same_metric_lists σ (mkState (<[r := o']> (heap σ)) cs).
Proof.
  intros Hr Ho r' self ml Hr'. simpl. destruct (decide (r = r')) as [<-|Hne].
  - rewrite lookup_insert_eq. rewrite Hr in Hr'. injection Hr' as ->.
    destruct (Ho self ml eq_refl) as [self' ->]. eauto.
  - rewrite lookup_insert_ne by done. eauto.
Qed.

Lemma same_metric_lists_alloc o σ : same_metric_lists σ (snd (alloc o σ)).
Proof.
  intros r self ml Hr. simpl. exists self.
  rewrite lookup_insert_ne; [exact Hr|].
  intros <-. pose proof (is_fresh (dom (heap σ))) as Hf.
  apply not_elem_of_dom in Hf. congruence.
Qed.

Lemma same_metric_lists_of_source σ σ' :
  same_source_objects σ σ' -> same_metric_lists σ σ'.
Proof. intros Hs r self ml Hr. exists self. apply Hs; [exact Hr | reflexivity]. Qed.

Lemma same_metric_lists_logged e σ σ' :
  same_metric_lists (logged e σ) σ' -> same_metric_lists σ σ'.
Proof. intros Hs r self ml Hr. exact (Hs r self ml Hr). Qed.

Lemma close_keeps_metric_lists depth r σ :
  same_metric_lists σ (snd (call_close depth r σ)).
Proof.
  revert r σ. induction depth as [|depth IH]; intros r σ.
  - apply same_metric_lists_refl.
  - apply (same_metric_lists_logged (CallClose r)).
    destruct (heap σ !! r) as [[self|self ml|self attrs]|] eqn:Hr.
    + rewrite (call_close_Base _ _ _ _ Hr).
      destruct (MetricBase.close self) as [[e|res] self'].
      * apply same_metric_lists_refl.
      * apply (same_metric_lists_store r (Base self) _ (logged (CallClose r) σ));
          [exact Hr | discriminate].
    + rewrite (call_close_Chain _ _ _ _ _ Hr). unfold MetricChain.close.
      destruct (MetricBase.close self) as [[e|res] self'].
      * apply same_metric_lists_refl.
      * unfold bind at 1, store. cbn [fst snd].
        match goal with
        | |- same_metric_lists _ (snd (for_fold ?f ?l ?a ?s)) =>
            apply (same_metric_lists_trans _ s);
              [ apply (same_metric_lists_store r (Chain self ml) _
                         (logged (CallClose r) σ));
                  [exact Hr | intros ? ? [= <- <-]; eauto]
              | apply (keeps_for_fold _ same_metric_lists_refl same_metric_lists_trans f l
                         (fun res m => keeps_bind _ same_metric_lists_trans _ _ (IH m)
                                         (fun _ => keeps_ret _ same_metric_lists_refl _))) ]
        end.
    + rewrite (call_close_Sub _ _ _ _ _ Hr).
      apply (same_metric_lists_store r (Sub self attrs) _ (logged (CallClose r) σ));
        [exact Hr | discriminate].
    + rewrite (call_close_dangling _ _ _ Hr). apply same_metric_lists_refl.
Qed.

Lemma run_calls_keep_metric_lists depth (cs : list (call X)) :
  forall σ, forallb not_add_metric cs = true ->
            same_metric_lists σ (run_calls depth cs σ).
Proof.
  induction cs as [|cl cs IH]; intros σ Hcs; simpl.
  - apply same_metric_lists_refl.
  - simpl in Hcs. apply andb_true_iff in Hcs as [Hcl Hcs].
    eapply same_metric_lists_trans; [|apply IH, Hcs].
    destruct cl; simpl; try discriminate.
    + apply same_metric_lists_alloc.
    + apply same_metric_lists_alloc.
    + apply same_metric_lists_alloc.
    + apply same_metric_lists_of_source, forward_keeps_source_objects_aux.
    + apply close_keeps_metric_lists.
Qed.

(** X4: no call and no construction removes or reorders the children of
    a chain: after any calls its [metric_list] starts with the list it had;
    and when none of the calls is [add_metric], the list is the same, so
    that [forward] and [close] never change what is registered. *)
Theorem metric_list_only_grows depth (cs : list (call X)) σ c self ml :
  heap σ !! c = Some (Chain self ml) ->
  (exists self' ml',
      heap (run_calls depth cs σ) !! c = Some (Chain self' ml') /\
      ml `prefix_of` ml') /\
  (forallb not_add_metric cs = true ->
   exists self', heap (run_calls depth cs σ) !! c = Some (Chain self' ml)).
Proof.
  intros Hc. split.
  - destruct (run_calls_preserves depth cs σ c _ Hc) as (o' & Ho' & Hle).
    destruct o' as [|self' ml'|]; simpl in Hle; try tauto.
    exists self', ml'. split; [exact Ho' | apply Hle].
  - intros Hcs. exact (run_calls_keep_metric_lists depth cs σ Hcs c self ml Hc).
Qed.

(** X5: an open instance of [MetricBase] takes any number of batches: each
    [forward] with a [dict] returns, and the store after all of them is the
    store before the first; only the calls are entered, in order. *)
Theorem base_forward_any_number depth r self (batches : list pyval) σ :
  heap σ !! r = Some (Base self) -> MetricBase.closed self = false ->
  Forall (fun data => is_dict data = true) batches ->
  for_each (fun data => call_forward (S depth) r data) batches σ =
  (inr tt, mkState (heap σ) (calls σ ++ map (CallForward r) batches)).
Proof.
  intros Hr Hopen Hds. revert σ Hr.
  induction Hds as [|data batches Hd _ IH]; intros σ Hr.
  - simpl. rewrite app_nil_r. destruct σ; reflexivity.
  - simpl. unfold bind. rewrite (call_forward_Base _ _ _ _ _ Hr).
    unfold MetricBase.forward. rewrite Hopen, Hd. simpl.
    rewrite (IH (logged (CallForward r data) σ) Hr). simpl.
    rewrite <- app_assoc. reflexivity.
Qed.

(** The loop of [MetricChain.close] when the child after [l1] raises. *)
Lemma close_leaves_raise depth (l1 l2 : list ref) (outs1 : list (dict * object X))
    m o e o' (res : dict) σ :
  NoDup (l1 ++ [m]) ->
  Forall2 (fun m out => exists o, heap σ !! m = Some o /\ leaf_close o = Some out)
    l1 (map (fun out => (inr (fst out), snd out)) outs1) ->
  heap σ !! m = Some o -> leaf_close o = Some (inl e, o') ->
  for_fold (fun res m => let* d := call_close (S depth) m in ret (dict_update res d))
    (l1 ++ m :: l2) res σ =
  (inl e, mkState (updated (l1 ++ [m]) (map snd outs1 ++ [o']) (heap σ))
                  (calls σ ++ map CallClose (l1 ++ [m]))).
Proof.
  intros Hnd H2 Ho Hleaf.
  apply NoDup_app in Hnd as (Hnd1 & Hm & _).
  assert (Hm1 : m ∉ l1) by (intros Hin; apply (Hm m Hin); left).
  assert (Hlen : length l1 = length (map snd outs1))
    by (apply Forall2_length in H2; rewrite !length_map in *; exact H2).
  rewrite for_fold_app, (close_leaves_return _ _ _ _ _ Hnd1 H2).
  simpl. unfold bind.
  erewrite call_close_leaf; [| |exact Hleaf].
  - simpl. rewrite updated_snoc by assumption.
    rewrite map_app, <- app_assoc. reflexivity.
  - simpl. rewrite updated_lookup_notin by exact Hm1. exact Ho.
Qed.

(** X6: [close] on a chain is not undone when a child raises.  When the
    children before [m] are distinct objects that are not chains and their
    [close] returns, and the [close] of [m] raises, the chain raises the
    same exception and returns no mapping; the chain and the children
    before [m] are left closed, [m] is as its raising call left it, and the
    children after [m] are not called. *)
Theorem chain_close_child_raises depth c self (l1 l2 : list ref)
    (outs1 : list (dict * object X)) m o e o' σ :
  heap σ !! c = Some (Chain self (l1 ++ m :: l2)) ->
  MetricBase.closed self = false ->
  NoDup (l1 ++ [m]) ->
  Forall2 (fun m out => exists o, heap σ !! m = Some o /\ leaf_close o = Some out)
    l1 (map (fun out => (inr (fst out), snd out)) outs1) ->
  heap σ !! m = Some o -> leaf_close o = Some (inl e, o') ->
  call_close (S (S depth)) c σ =
  (inl e,
   mkState
     (updated (l1 ++ [m]) (map snd outs1 ++ [o'])
        (<[c := Chain (MetricBase.mk (MetricBase.unordered_hash self) true)
                  (l1 ++ m :: l2)]> (heap σ)))
     (calls σ ++ CallClose c :: map CallClose (l1 ++ [m]))).
Proof.
  intros Hc Hopen Hnd H2 Ho Hleaf.
  rewrite (chain_close_open _ _ _ _ _ Hc Hopen).
  assert (Hc1 : c ∉ l1)
    by (eapply (children_not_chain leaf_close); [exact Hc | reflexivity | exact H2]).
  assert (Hcm : c <> m).
  { intros <-. rewrite Hc in Ho. injection Ho as <-. discriminate. }
  erewrite close_leaves_raise;
    [ | exact Hnd | apply children_insert_ne; [exact Hc1 | exact H2]
      | simpl; rewrite lookup_insert_ne by exact Hcm; exact Ho | exact Hleaf ].
  simpl. rewrite <- app_assoc. reflexivity.
Qed.

Lemma for_fold_close_cons (call : ref -> M X dict) m (ml : list ref) (res0 : dict) σ :
  for_fold (fun res m => let* d := call m in ret (dict_update res d)) (m :: ml) res0 σ =
  match call m σ with
  | (inl e, σ') => (inl e, σ')
  | (inr d, σ') =>
      for_fold (fun res m => let* d := call m in ret (dict_update res d))
        ml (dict_update res0 d) σ'
  end.
Proof.
  simpl. unfold bind at 1. unfold bind at 1.
  destruct (call m σ) as [[e|d] σ']; reflexivity.
Qed.

(** The loop of [MetricChain.close] over instances of [MetricBase]. *)
Lemma close_plain_children depth (ml : list ref) :
  forall σ (res0 : dict),
    Forall (fun m => exists b, heap σ !! m = Some (Base b)) ml ->
    (NoDup ml /\
     Forall (fun m => exists b, heap σ !! m = Some (Base b) /\
                                MetricBase.closed b = false) ml ->
     exists σ',
       for_fold (fun res m => let* d := call_close (S depth) m in ret (dict_update res d))
         ml res0 σ = (inr res0, σ')) /\
    (forall res σ',
        for_fold (fun res m => let* d := call_close (S depth) m in ret (dict_update res d))
          ml res0 σ = (inr res, σ') ->
        NoDup ml /\
        Forall (fun m => exists b, heap σ !! m = Some (Base b) /\
                                   MetricBase.closed b = false) ml).
Proof.
  induction ml as [|m ml IH]; intros σ res0 Hall.
  - split.
    + intros _. eexists. reflexivity.
    + intros res σ' _. split; constructor.
  - apply Forall_cons in Hall as [[b Hm] Hall].
    rewrite for_fold_close_cons, (call_close_Base _ _ _ _ Hm).
    unfold MetricBase.close.
    destruct (MetricBase.closed b) eqn:Hb; cbn [negb].
    + split.
      * intros [_ Hopen]. apply Forall_cons in Hopen as [(b' & Hm' & Hb') _].
        rewrite Hm in Hm'. injection Hm' as <-. congruence.
      * intros res σ' Hret. discriminate.
    + assert (Hd : dict_update res0 ∅ = res0)
        by (unfold dict_update; apply (left_id_L ∅ (∪))).
      rewrite Hd.
      set (σ1 := mkState (<[m := Base (MetricBase.mk (MetricBase.unordered_hash b) true)]>
                            (heap σ)) (calls σ ++ [CallClose m])).
      assert (Hall1 : Forall (fun x => exists b, heap σ1 !! x = Some (Base b)) ml).
      { eapply Forall_impl; [exact Hall|]. intros x [bx Hx]. simpl.
        destruct (decide (m = x)) as [<-|Hne].
        - rewrite lookup_insert_eq. eauto.
        - rewrite lookup_insert_ne by done. eauto. }
      destruct (IH σ1 res0 Hall1) as [IH1 IH2]. split.
      * intros [Hnd Hopen]. apply NoDup_cons in Hnd as [Hm' Hnd].
        apply Forall_cons in Hopen as [_ Hopen]. apply IH1. split; [exact Hnd|].
        rewrite Forall_forall in Hopen |- *. intros x Hx.
        destruct (Hopen x Hx) as (bx & Hbx & Hox). exists bx. split; [|exact Hox].
        simpl. rewrite lookup_insert_ne; [exact Hbx|]. intros <-. contradiction.
      * intros res σ' Hret. destruct (IH2 res σ' Hret) as [Hnd Hopen1].
        rewrite Forall_forall in Hopen1.
        assert (Hm' : m ∉ ml).
        { intros Hin. destruct (Hopen1 m Hin) as (bx & Hbx & Hox).
          simpl in Hbx. rewrite lookup_insert_eq in Hbx. injection Hbx as <-.
          discriminate. }
        split; [apply NoDup_cons; auto|].
        apply Forall_cons. split; [eauto|].
        rewrite Forall_forall. intros x Hx.
        destruct (Hopen1 x Hx) as (bx & Hbx & Hox). exists bx. split; [|exact Hox].
        simpl in Hbx. rewrite lookup_insert_ne in Hbx; [exact Hbx|].
        intros <-. contradiction.
Qed.

Lemma close_plain_children_result depth (ml : list ref) :
  forall σ (res0 res : dict) σ',
    Forall (fun m => exists b, heap σ !! m = Some (Base b)) ml ->
    for_fold (fun res m => let* d := call_close (S depth) m in ret (dict_update res d))
      ml res0 σ = (inr res, σ') ->
    res = res0.
Proof.
  intros σ res0 res σ' Hall Hret.
  destruct (close_plain_children depth ml σ res0 Hall) as [H1 H2].
  destruct (H1 (H2 res σ' Hret)) as [σ'' Hret']. congruence.
Qed.

(** X7: a chain whose children are instances of [MetricBase] itself.  Its
    [close] returns exactly when the children are pairwise distinct objects
    and all open; it then returns the empty mapping.  With a child
    registered twice, or a child closed before, it raises. *)
Theorem chain_close_plain_children depth c self ml σ :
  heap σ !! c = Some (Chain self ml) -> MetricBase.closed self = false ->
  Forall (fun m => exists b, heap σ !! m = Some (Base b)) ml ->
  ((exists res σ', call_close (S (S depth)) c σ = (inr res, σ')) <->
   NoDup ml /\
   Forall (fun m => exists b, heap σ !! m = Some (Base b) /\
                              MetricBase.closed b = false) ml) /\
  (forall res σ', call_close (S (S depth)) c σ = (inr res, σ') -> res = ∅).
Proof.
  intros Hc Hopen Hall.
  rewrite (chain_close_open _ _ _ _ _ Hc Hopen).
  set (σ1 := mkState
               (<[c := Chain (MetricBase.mk (MetricBase.unordered_hash self) true) ml]>
                  (heap σ)) (calls σ ++ [CallClose c])).
  assert (Hne : forall x, x ∈ ml -> x <> c).
  { rewrite Forall_forall in Hall. intros x Hx ->.
    destruct (Hall c Hx) as [b Hb]. congruence. }
  assert (Hall1 : Forall (fun m => exists b, heap σ1 !! m = Some (Base b)) ml).
  { rewrite Forall_forall in Hall |- *. intros x Hx. destruct (Hall x Hx) as [b Hb].
    exists b. simpl. rewrite lookup_insert_ne; [exact Hb|]. intros ->.
    exact (Hne x Hx eq_refl). }
  destruct (close_plain_children depth ml σ1 ∅ Hall1) as [H1 H2].
  assert (Hshift : Forall (fun m => exists b, heap σ1 !! m = Some (Base b) /\
                                              MetricBase.closed b = false) ml <->
                   Forall (fun m => exists b, heap σ !! m = Some (Base b) /\
                                              MetricBase.closed b = false) ml).
  { rewrite !Forall_forall. split; intros Hx x Hin; destruct (Hx x Hin) as (b & Hb & Ho);
      exists b; (split; [|exact Ho]); simpl in *.
    - rewrite lookup_insert_ne in Hb; [exact Hb|]. intros ->. exact (Hne x Hin eq_refl).
    - rewrite lookup_insert_ne; [exact Hb|]. intros ->. exact (Hne x Hin eq_refl). }
  split; [split|].
  - intros (res & σ' & Hret). destruct (H2 res σ' Hret) as [Hnd Ho].
    split; [exact Hnd | apply Hshift, Ho].
  - intros [Hnd Ho]. destruct (H1 (conj Hnd (proj2 Hshift Ho))) as [σ' Hret]. eauto.
  - intros res σ' Hret. exact (close_plain_children_result depth ml σ1 ∅ res σ' Hall1 Hret).
Qed.

(** A loop does not return when one of its calls never returns from the
    states an invariant of the calls describes. *)
Lemma for_each_never_returns {A} (f : A -> M X unit) (I : state X -> Prop)
    (x0 : A) (l : list A) :
  (forall x σ, I σ -> I (snd (f x σ))) ->
  (forall σ, I σ -> fst (f x0 σ) <> inr tt) ->
  x0 ∈ l ->
  forall σ, I σ -> fst (for_each f l σ) <> inr tt.
Proof.
  intros Hkeep Hx0. induction l as [|x l IH]; intros Hin σ HI.
  - apply elem_of_nil in Hin. contradiction.
  - simpl. unfold bind.
    pose proof (Hkeep x σ HI) as HI'. pose proof (Hx0 σ HI) as Hraise.
    apply elem_of_cons in Hin as [<-|Hin].
    + destruct (f x0 σ) as [[e|[]] σ']; simpl in *; [discriminate | congruence].
    + destruct (f x σ) as [[e|[]] σ']; simpl in *; [discriminate|].
      apply IH; assumption.
Qed.

Lemma for_fold_never_returns {A B} (f : B -> A -> M X B) (I : state X -> Prop)
    (x0 : A) (l : list A) :
  (forall acc x σ, I σ -> I (snd (f acc x σ))) ->
  (forall acc σ, I σ -> forall b, fst (f acc x0 σ) <> inr b) ->
  x0 ∈ l ->
  forall acc σ, I σ -> forall b, fst (for_fold f l acc σ) <> inr b.
Proof.
  intros Hkeep Hx0. induction l as [|x l IH]; intros Hin acc σ HI b.
  - apply elem_of_nil in Hin. contradiction.
  - simpl. unfold bind.
    pose proof (Hkeep acc x σ HI) as HI'. pose proof (Hx0 acc σ HI) as Hraise.
    apply elem_of_cons in Hin as [<-|Hin].
    + destruct (f acc x0 σ) as [[e|b'] σ']; simpl in *; [discriminate|].
      exfalso. exact (Hraise b' eq_refl).
    + destruct (f acc x σ) as [[e|b'] σ']; simpl in *; [discriminate|].
      apply IH; assumption.
Qed.

Lemma forward_in_itself c self ml data :
  c ∈ ml ->
  forall depth σ,
    heap σ !! c = Some (Chain self ml) ->
    fst (call_forward depth c data σ) <> inr tt.
Proof.
  intros Hin. induction depth as [|depth IH]; intros σ Hc.
  - discriminate.
  - rewrite (call_forward_Chain _ _ _ _ _ _ Hc).
    unfold MetricChain.forward, bind at 1, lift.
    destruct (MetricBase.forward self data) as [e|[]]; [discriminate|].
    apply (for_each_never_returns _
             (fun σ => heap σ !! c = Some (Chain self ml)) c ml).
    + intros x σ' Hc'. apply forward_keeps_source_objects_aux; [exact Hc' | reflexivity].
    + exact IH.
    + exact Hin.
    + exact Hc.
Qed.

Lemma close_in_itself c :
  forall depth σ self ml,
    heap σ !! c = Some (Chain self ml) -> c ∈ ml ->
    forall res, fst (call_close depth c σ) <> inr res.
Proof.
  intros depth σ self ml Hc Hin res. destruct depth as [|depth]; [discriminate|].
  destruct (MetricBase.closed self) eqn:Hcl.
  - rewrite (closed_close_raises depth c σ _ Hc eq_refl Hcl). discriminate.
  - rewrite (chain_close_open _ _ _ _ _ Hc Hcl).
    apply (for_fold_never_returns _
             (fun σ => exists o, heap σ !! c = Some o /\ source_class o = true /\
                                 MetricBase.closed (obj_base o) = true) c ml).
    + intros acc x σ' (o & Ho & Hsrc & Hclo).
      pose proof (preserves_bind _ _ (call_close_preserves depth x)
                    (fun d => preserves_ret (dict_update acc d)) σ') as Hle.
      exact (heap_le_closed _ _ _ _ Hle Ho Hsrc Hclo).
    + intros acc σ' (o & Ho & Hsrc & Hclo) b. unfold bind.
      destruct depth as [|depth']; [discriminate|].
      rewrite (closed_close_raises depth' c σ' o Ho Hsrc Hclo). discriminate.
    + exact Hin.
    + eexists. split; [apply lookup_insert_eq|]. auto.
Qed.

(** X8: [add_metric] makes no check against cycles: a chain is accepted as
    a child of itself.  On a chain that stands in its own [metric_list],
    [forward] never returns, whatever the call depth available (the
    recursion ends in an exception), and [close] never returns either: the
    chain is closed before its children, itself among them, are closed. *)
Theorem chain_registered_in_itself c self ml σ :
  heap σ !! c = Some (Chain self ml) ->
  MetricChain.add_metric c (PyObj c) σ =
  (inr tt, mkState (<[c := Chain self (ml ++ [c])]> (heap σ)) (calls σ)) /\
  (c ∈ ml -> forall depth data, fst (call_forward depth c data σ) <> inr tt) /\
  (c ∈ ml -> forall depth res, fst (call_close depth c σ) <> inr res).
Proof.
  intros Hc. split; [|split].
  - rewrite (add_metric_Chain _ _ _ _ _ Hc), (is_metric_obj _ _ _ Hc). reflexivity.
  - intros Hin depth data. apply (forward_in_itself c self ml data Hin depth σ Hc).
  - intros Hin depth res. apply (close_in_itself c depth σ self ml Hc Hin).
Qed.

(** *** The mapping a chain returns *)

Lemma merge_results_lookup_Some (ds : list dict) (k : string) (v : pyval) :
  merge_results ds !! k = Some v -> exists d, d ∈ ds /\ d !! k = Some v.
Proof.
  induction ds as [|d0 ds IH] using rev_ind.
  - unfold merge_results. simpl. rewrite lookup_empty. discriminate.
  - rewrite merge_results_last_wins. destruct (d0 !! k) as [v0|] eqn:Hk.
    + intros [= <-]. exists d0. split; [|exact Hk].
      apply elem_of_app. right. apply list_elem_of_singleton. reflexivity.
    + intros Hm. destruct (IH Hm) as (d & Hd & Hdk). exists d. split; [|exact Hdk].
      apply elem_of_app. left. exact Hd.
Qed.

Lemma merge_results_has_key (ds : list dict) (d : dict) (k : string) :
  d ∈ ds -> is_Some (d !! k) -> is_Some (merge_results ds !! k).
Proof.
  induction ds as [|d0 ds IH] using rev_ind; intros Hd Hk.
  - apply elem_of_nil in Hd. contradiction.
  - rewrite merge_results_last_wins. destruct (d0 !! k) as [v0|] eqn:Hk0; [eauto|].
    apply elem_of_app in Hd as [Hd|Hd]; [apply IH; assumption|].
    apply list_elem_of_singleton in Hd. subst d. rewrite Hk0 in Hk.
    destruct Hk as [? Hk]. discriminate.
Qed.

Lemma disjoint_keys_init (ds : list dict) (d0 : dict) :
  disjoint_keys (ds ++ [d0]) -> disjoint_keys ds.
Proof.
  intros Hdis i j d d' k Hij Hi Hj Hk.
  apply (Hdis i j d d' k Hij); [| |exact Hk].
  - apply lookup_app_l_Some. exact Hi.
  - apply lookup_app_l_Some. exact Hj.
Qed.

Lemma merge_results_disjoint (ds : list dict) (d : dict) (k : string) (v : pyval) :
  disjoint_keys ds -> d ∈ ds -> d !! k = Some v -> merge_results ds !! k = Some v.
Proof.
  induction ds as [|d0 ds IH] using rev_ind; intros Hdis Hd Hk.
  - apply elem_of_nil in Hd. contradiction.
  - rewrite merge_results_last_wins.
    apply elem_of_app in Hd as [Hd|Hd].
    + apply list_elem_of_lookup in Hd as [i Hi].
      assert (Hlt : (i < length ds)%nat) by (eapply lookup_lt_Some; exact Hi).
      rewrite (Hdis i (length ds) d d0 k).
      * apply IH; [eapply disjoint_keys_init; exact Hdis | | exact Hk].
        apply list_elem_of_lookup. eauto.
      * lia.
      * apply lookup_app_l_Some. exact Hi.
      * apply list_lookup_middle. reflexivity.
      * eauto.
    + apply list_elem_of_singleton in Hd. subst d. rewrite Hk. reflexivity.
Qed.

(** X9: the mapping an open chain returns, when its children are distinct
    objects that are not chains and their [close] returns.  Its keys are
    the keys of the children's mappings, none lost and none added, and each
    value is the value some child gave for the key.  When no key stands in
    two of the children's mappings, every child's mapping is in the result
    as it was returned, whatever the order of registration. *)
Theorem chain_close_result_keys depth c self ml σ (outs : list (dict * object X)) :
  heap σ !! c = Some (Chain self ml) -> MetricBase.closed self = false ->
  NoDup ml ->
  Forall2 (fun m out => exists o, heap σ !! m = Some o /\ leaf_close o = Some out)
    ml (map (fun out => (inr (fst out), snd out)) outs) ->
  exists res : dict,
    fst (call_close (S (S depth)) c σ) = inr res /\
    (forall k, is_Some (res !! k) <->
               exists d, d ∈ map fst outs /\ is_Some (d !! k)) /\
    (forall k v, res !! k = Some v -> exists d, d ∈ map fst outs /\ d !! k = Some v) /\
    (disjoint_keys (map fst outs) ->
     forall d, d ∈ map fst outs -> d ⊆ res).
Proof.
  intros Hc Hopen Hnd H2. exists (merge_results (map fst outs)).
  split; [rewrite (chain_close_leaves _ _ _ _ _ _ Hc Hopen Hnd H2); reflexivity|].
  split; [|split].
  - intros k. split.
    + intros [v Hv]. destruct (merge_results_lookup_Some _ _ _ Hv) as (d & Hd & Hdk).
      exists d. split; [exact Hd | eauto].
    + intros (d & Hd & Hk). eapply merge_results_has_key; eauto.
  - apply merge_results_lookup_Some.
  - intros Hdis d Hd. apply map_subseteq_spec. intros k v Hk.
    eapply merge_results_disjoint; eauto.
Qed.

(** *** A chain in a chain *)

(** [forward] on an open chain whose children are distinct objects that are
    not chains and return. *)
Lemma chain_forward_leaves depth c self ml data σ (outs : list (object X)) :
  heap σ !! c = Some (Chain self ml) ->
  MetricBase.closed self = false -> is_dict data = true ->
  NoDup ml ->
  Forall2 (fun m out => exists o, heap σ !! m = Some o /\ leaf_forward o data = Some out)
    ml (map (fun o' => (inr tt, o')) outs) ->
  call_forward (S (S depth)) c data σ =
  (inr tt,
   mkState (updated ml outs (heap σ))
           (calls σ ++ CallForward c data :: map (fun m => CallForward m data) ml)).
Proof.
  intros Hc Hopen Hd Hnd H2. rewrite (call_forward_Chain _ _ _ _ _ _ Hc).
  unfold MetricChain.forward, bind at 1, lift, MetricBase.forward.
  rewrite Hopen, Hd. cbn [negb].
  rewrite (forward_leaves_return depth data ml outs (logged (CallForward c data) σ) Hnd H2).
  simpl. rewrite <- app_assoc. reflexivity.
Qed.

(** X10: a chain is a metric, and can be the child of a chain.  On an open
    chain whose only child is an open chain of distinct objects that are
    not chains: [forward] with a [dict] reaches each of the inner children
    once, in their order, when they return; and [close] closes the outer
    chain, then the inner chain, then its children, and returns the merged
    mapping of the inner chain. *)
Theorem chain_in_chain depth c c' self self' ml σ :
  heap σ !! c = Some (Chain self [c']) -> MetricBase.closed self = false ->
  heap σ !! c' = Some (Chain self' ml) -> MetricBase.closed self' = false ->
  c <> c' -> NoDup ml ->
  (forall data (outs : list (object X)),
      is_dict data = true ->
      Forall2 (fun m out => exists o, heap σ !! m = Some o /\
                                      leaf_forward o data = Some out)
        ml (map (fun o' => (inr tt, o')) outs) ->
      call_forward (S (S (S depth))) c data σ =
      (inr tt,
       mkState (updated ml outs (heap σ))
               (calls σ ++ CallForward c data :: CallForward c' data
                        :: map (fun m => CallForward m data) ml))) /\
  (forall outs : list (dict * object X),
      Forall2 (fun m out => exists o, heap σ !! m = Some o /\ leaf_close o = Some out)
        ml (map (fun out => (inr (fst out), snd out)) outs) ->
      call_close (S (S (S depth))) c σ =
      (inr (merge_results (map fst outs)),
       mkState
         (updated ml (map snd outs)
            (<[c' := Chain (MetricBase.mk (MetricBase.unordered_hash self') true) ml]>
               (<[c := Chain (MetricBase.mk (MetricBase.unordered_hash self) true) [c']]>
                  (heap σ))))
         (calls σ ++ CallClose c :: CallClose c' :: map CallClose ml))).
Proof.
  intros Hc Hopen Hc' Hopen' Hne Hnd. split.
  - intros data outs Hd H2. rewrite (call_forward_Chain _ _ _ _ _ _ Hc).
    unfold MetricChain.forward, bind at 1, lift, MetricBase.forward.
    rewrite Hopen, Hd. cbn [negb]. cbn [for_each]. unfold bind at 1.
    rewrite (chain_forward_leaves depth c' self' ml data
               (logged (CallForward c data) σ) outs Hc' Hopen' Hd Hnd H2).
    simpl. rewrite <- app_assoc. reflexivity.
  - intros outs H2. rewrite (chain_close_open _ _ _ _ _ Hc Hopen).
    rewrite for_fold_close_cons.
    assert (Hcm : c ∉ ml)
      by (eapply (children_not_chain leaf_close); [exact Hc | reflexivity | exact H2]).
    erewrite chain_close_leaves;
      [ | simpl; rewrite lookup_insert_ne by exact Hne; exact Hc' | exact Hopen'
        | exact Hnd | apply children_insert_ne; [exact Hcm | exact H2] ].
    simpl. unfold ret, dict_update. rewrite (right_id_L ∅ (∪)).
    rewrite <- app_assoc. reflexivity.
Qed.

End Further.

(** ** The fingerprint and the serialisation of the records *)

Section Serialisations.
Context {A B : Type} {RA : Repr A} {RB : Repr B}.

Lemma hash_serialised_comm (self : MetricBase.t) (d1 d2 : bytes) :
  hash_serialised (hash_serialised self d1) d2 =
  hash_serialised (hash_serialised self d2) d1.
Proof. unfold hash_serialised. simpl. f_equal. apply update_data_comm. Qed.

Lemma hash_relevant_data_serialised {C} {RC : Repr C} (l : list C) :
  forall self,
    MetricBase._hash_relevant_data self l =
    fold_left hash_serialised (map (fun x => PyStr.encode (repr x)) l) self.
Proof.
  induction l as [|x l IH]; intros self; [reflexivity|].
  simpl. rewrite <- IH. reflexivity.
Qed.

(** X11: the fingerprint sees a record through [repr(item).encode()] only.
    Two lists of records, of any types, whose serialisations are the same
    up to order leave a metric in the same state: records that print alike
    are not told apart. *)
Theorem fingerprint_of_serialisations (self : MetricBase.t) (l1 : list A) (l2 : list B) :
  Permutation (map (fun x => PyStr.encode (repr x)) l1)
              (map (fun y => PyStr.encode (repr y)) l2) ->
  MetricBase._hash_relevant_data self l1 = MetricBase._hash_relevant_data self l2.
Proof.
  intros Hperm. rewrite !hash_relevant_data_serialised.
  apply (fold_left_perm _ _ _ hash_serialised_comm _ _ Hperm).
Qed.

(** X12: [_hash_relevant_data] neither reads nor writes the closed flag: a
    closed metric is hashed into like an open one, and the flag is after
    the call what it was before. *)
Theorem hash_relevant_data_ignores_closed
    (u : UnorderedSha256.t) (c1 c2 : bool) (l : list A) :
  MetricBase.closed (MetricBase._hash_relevant_data (MetricBase.mk u c1) l) = c1 /\
  MetricBase.unordered_hash (MetricBase._hash_relevant_data (MetricBase.mk u c1) l) =
  MetricBase.unordered_hash (MetricBase._hash_relevant_data (MetricBase.mk u c2) l).
Proof.
  split; [apply hash_relevant_data_closed|].
  revert u. induction l as [|x l IH]; intros u; [reflexivity|].
  rewrite !hash_relevant_data_fold. simpl. rewrite <- !hash_relevant_data_fold.
  apply IH.
Qed.

End Serialisations.

(** ** The further theorems on the sample stores *)

Lemma fingerprint_of_serialisations_witness :
  Permutation
    (map (fun x => PyStr.encode (repr x)) [([] : list Z); []])
    (map (fun y => PyStr.encode (repr y)) [([] : list string); []]) /\
  MetricBase._hash_relevant_data MetricBase.init [([] : list Z); []] =
  MetricBase._hash_relevant_data MetricBase.init [([] : list string); []].
Proof.
  assert (Hp : Permutation
                 (map (fun x => PyStr.encode (repr x)) [([] : list Z); []])
                 (map (fun y => PyStr.encode (repr y)) [([] : list string); []]))
    by (vm_compute; reflexivity).
  split; [exact Hp|].
  apply (fingerprint_of_serialisations MetricBase.init _ _ Hp).
Defined.

Lemma forward_keeps_source_objects_witness :
  heap sample_store !! 0%nat = Some (Chain MetricBase.init [1; 2]%nat) /\
  heap (snd (call_forward 2 0%nat sample_batch sample_store)) !! 0%nat
    = Some (Chain MetricBase.init [1; 2]%nat).
Proof.
  assert (H0 : heap sample_store !! 0%nat = Some (Chain MetricBase.init [1; 2]%nat))
    by (vm_compute; reflexivity).
  split; [exact H0|].
  apply (forward_keeps_source_objects 2 0%nat sample_batch sample_store 0%nat _ H0).
  reflexivity.
Defined.

Lemma metric_list_only_grows_witness :
  heap sample_store !! 0%nat = Some (Chain MetricBase.init [1; 2]%nat) /\
  exists self' ml',
    heap (run_calls 2
            [DoForward 0%nat sample_batch; DoAddMetric 0%nat (PyObj 1%nat); DoClose 0%nat]
            sample_store) !! 0%nat = Some (Chain self' ml') /\
    [1; 2]%nat `prefix_of` ml'.
Proof.
  assert (H0 : heap sample_store !! 0%nat = Some (Chain MetricBase.init [1; 2]%nat))
    by (vm_compute; reflexivity).
  split; [exact H0|].
  exact (proj1 (metric_list_only_grows 2
                  [DoForward 0%nat sample_batch; DoAddMetric 0%nat (PyObj 1%nat);
                   DoClose 0%nat]
                  sample_store 0%nat _ _ H0)).
Defined.

Lemma base_forward_any_number_witness :
  heap sample_store_plain !! 1%nat = Some (Base MetricBase.init) /\
  for_each (fun data => call_forward 1 1%nat data) [sample_batch; sample_batch]
    sample_store_plain =
  (inr tt,
   mkState (heap sample_store_plain)
     [CallForward 1%nat sample_batch; CallForward 1%nat sample_batch]).
Proof.
  assert (H1 : heap sample_store_plain !! 1%nat = Some (Base MetricBase.init))
    by (vm_compute; reflexivity).
  split; [exact H1|].
  apply (base_forward_any_number 0 1%nat _ [sample_batch; sample_batch]
           sample_store_plain H1 eq_refl).
  repeat constructor.
Defined.

Lemma chain_close_child_raises_witness :
  heap sample_store_closed_child !! 0%nat
    = Some (Chain MetricBase.init ([1%nat] ++ 3%nat :: [2%nat])) /\
  call_close 2 0%nat sample_store_closed_child =
  (inl (RuntimeError MetricBase.closed_msg),
   mkState
     (updated [1; 3]%nat [closed_of E1; E3_closed]
        (<[0%nat := Chain (MetricBase.mk UnorderedSha256.init true) [1; 3; 2]%nat]>
           (heap sample_store_closed_child)))
     [CallClose 0%nat; CallClose 1%nat; CallClose 3%nat]).
Proof.
  assert (H0 : heap sample_store_closed_child !! 0%nat
               = Some (Chain MetricBase.init ([1%nat] ++ 3%nat :: [2%nat])))
    by (vm_compute; reflexivity).
  split; [exact H0|].
  apply (chain_close_child_raises 0 0%nat _ [1%nat] [2%nat]
           [({["a" := PyInt 1]}, closed_of E1)] 3%nat E3_closed
           (RuntimeError MetricBase.closed_msg) E3_closed
           sample_store_closed_child H0 eq_refl).
  - compute_done.
  - repeat constructor. exists E1. split; vm_compute; reflexivity.
  - vm_compute. reflexivity.
  - vm_compute. reflexivity.
Defined.

Lemma chain_close_plain_children_witness :
  heap sample_store_plain !! 0%nat = Some (Chain MetricBase.init [1; 2]%nat) /\
  exists res σ', call_close 2 0%nat sample_store_plain = (inr res, σ').
Proof.
  assert (H0 : heap sample_store_plain !! 0%nat = Some (Chain MetricBase.init [1; 2]%nat))
    by (vm_compute; reflexivity).
  split; [exact H0|].
  assert (Hall : Forall (fun m => exists b, heap sample_store_plain !! m = Some (Base b))
                   [1; 2]%nat)
    by (repeat constructor; eexists; vm_compute; reflexivity).
  apply (proj1 (chain_close_plain_children 0 0%nat _ _ sample_store_plain H0 eq_refl Hall)).
  split; [compute_done|].
  repeat constructor; exists MetricBase.init; split; vm_compute; reflexivity.
Defined.

Lemma chain_registered_in_itself_witness :
  heap sample_store_self !! 0%nat = Some (Chain MetricBase.init [1; 0]%nat) /\
  fst (call_forward 5 0%nat sample_batch sample_store_self) <> inr tt /\
  fst (call_close 5 0%nat sample_store_self) <> inr ∅.
Proof.
  assert (H0 : heap sample_store_self !! 0%nat = Some (Chain MetricBase.init [1; 0]%nat))
    by (vm_compute; reflexivity).
  split; [exact H0|].
  destruct (chain_registered_in_itself 0%nat _ _ sample_store_self H0)
    as (_ & Hforward & Hclose).
  assert (Hin : 0%nat ∈ [1; 0]%nat) by (right; left).
  split; [apply Hforward, Hin | apply Hclose, Hin].
Defined.

Lemma chain_close_result_keys_witness :
  heap sample_store !! 0%nat = Some (Chain MetricBase.init [1; 2]%nat) /\
  exists res : dict,
    fst (call_close 2 0%nat sample_store) = inr res /\
    (forall k, is_Some (res !! k) <->
               exists d, d ∈ [ ({["a" := PyInt 1]} : dict);
                               {["a" := PyInt 2; "b" := PyInt 3]} ] /\
                         is_Some (d !! k)).
Proof.
  assert (H0 : heap sample_store !! 0%nat = Some (Chain MetricBase.init [1; 2]%nat))
    by (vm_compute; reflexivity).
  split; [exact H0|].
  destruct (chain_close_result_keys 0 0%nat _ _ sample_store
              [({["a" := PyInt 1]}, closed_of E1);
               ({["a" := PyInt 2; "b" := PyInt 3]}, closed_of E2)] H0 eq_refl)
    as (res & Hres & Hkeys & _).
  - compute_done.
  - repeat constructor.
    + exists E1. split; vm_compute; reflexivity.
    + exists E2. split; vm_compute; reflexivity.
  - exists res. split; [exact Hres | exact Hkeys].
Defined.

Lemma chain_in_chain_witness :
  heap sample_store_nested !! 0%nat = Some (Chain MetricBase.init [3%nat]) /\
  heap sample_store_nested !! 3%nat = Some (Chain MetricBase.init [1; 2]%nat) /\
  call_close 3 0%nat sample_store_nested =
  (inr (merge_results [ {["a" := PyInt 1]}; {["a" := PyInt 2; "b" := PyInt 3]} ]),
   mkState
     (updated [1; 2]%nat [closed_of E1; closed_of E2]
        (<[3%nat := Chain (MetricBase.mk UnorderedSha256.init true) [1; 2]%nat]>
           (<[0%nat := Chain (MetricBase.mk UnorderedSha256.init true) [3%nat]]>
              (heap sample_store_nested))))
     [CallClose 0%nat; CallClose 3%nat; CallClose 1%nat; CallClose 2%nat]).
Proof.
  assert (H0 : heap sample_store_nested !! 0%nat = Some (Chain MetricBase.init [3%nat]))
    by (vm_compute; reflexivity).
  assert (H3 : heap sample_store_nested !! 3%nat
               = Some (Chain MetricBase.init [1; 2]%nat))
    by (vm_compute; reflexivity).
  split; [exact H0|]. split; [exact H3|].
  destruct (chain_in_chain 0 0%nat 3%nat _ _ _ sample_store_nested H0 eq_refl H3 eq_refl)
    as [_ Hclose].
  - discriminate.
  - compute_done.
  - rewrite (Hclose [({["a" := PyInt 1]}, closed_of E1);
                     ({["a" := PyInt 2; "b" := PyInt 3]}, closed_of E2)]);
      [reflexivity|].
    repeat constructor.
    + exists E1. split; vm_compute; reflexivity.
    + exists E2. split; vm_compute; reflexivity.
Defined.
